(** * HUSH backend ([main.py]): a shallow embedding and its properties

    The program is a small FastAPI service.  Three handlers
    ([read_root], [submit_model_update], [get_dashboard_data]) and a
    startup routine ([lifespan]) act on

    - two module-level globals, [global_model_weights] and
      [global_update_count];
    - one SQLite table of [DashboardDataPoint] rows;
    - the console ([print]).

    Python's [float] is IEEE-754 binary64.  It is modelled by the
    executable specification [spec_float] of the Standard Library at
    precision 53 and maximal exponent 1024, so that every arithmetic
    step of the handler rounds exactly as in the program.  What comes
    from outside the program (the three Laplace draws, the wall clock
    and whether the store accepts a commit) is an explicit input of the
    handler. *)

From Stdlib Require Import ZArith NArith Lia Bool List.
From Stdlib Require Import Sorting.Sorted Sorting.Permutation.
From Stdlib Require Import Structures.OrderedTypeEx.
From Stdlib Require Lists.Finite.
From Stdlib Require Import Floats.SpecFloat.
From Stdlib Require Import Strings.String Strings.Ascii.
From stdpp Require Import gmap strings.

Local Open Scope Z_scope.
Local Open Scope string_scope.

(* ================================================================= *)
(** ** Python floats *)

Definition float : Type := spec_float.

Definition prec : Z := 53.
Definition emax : Z := 1024.

Definition fadd : float -> float -> float := SFadd prec emax.
Definition fmul : float -> float -> float := SFmul prec emax.
Definition fdiv : float -> float -> float := SFdiv prec emax.

(** The values a Python [float] can hold: mantissa and exponent of a
    finite number are in canonical binary64 form. *)
Definition is_float (x : float) : bool := valid_binary prec emax x.

Definition is_zero (x : float) : bool :=
  match x with S754_zero _ => true | _ => false end.

(** Correctly rounded value of the integer [n]. *)
Definition Z2F (n : Z) : float := binary_normalize prec emax n 0 false.

(** A decimal literal [n / 10^p] of the source text, rounded to the
    nearest binary64 value as the Python parser does (both [n] and
    [10^p] are exact in binary64 for the literals of [main.py], so one
    correctly rounded division gives the nearest value). *)
Definition decimal (n : Z) (p : Z) : float := fdiv (Z2F n) (Z2F (10 ^ p)).

Definition f0_0 : float := S754_zero false.
Definition f1_0 : float := S754_finite false 4503599627370496 (-52).
Definition f2_0 : float := S754_finite false 4503599627370496 (-51).

Definition f0_33 : float := Eval vm_compute in decimal 33 2.
Definition f0_34 : float := Eval vm_compute in decimal 34 2.
Definition f0_4  : float := Eval vm_compute in decimal 4 1.
Definition f0_2  : float := Eval vm_compute in decimal 2 1.
Definition f0_42 : float := Eval vm_compute in decimal 42 2.
Definition f0_38 : float := Eval vm_compute in decimal 38 2.
Definition f0_45 : float := Eval vm_compute in decimal 45 2.
Definition f0_17 : float := Eval vm_compute in decimal 17 2.

(** Two floats denote the same number: they are the same float, or
    zeros that differ in sign only ([0.0 == -0.0] in Python). *)
Definition plus_zero (x : float) : float :=
  match x with S754_zero _ => S754_zero false | _ => x end.

Definition same_number (x y : float) : Prop := plus_zero x = plus_zero y.

(* ================================================================= *)
(** ** Records of the program *)

(** [ModelUpdatePayload]: the request body of [POST /v1/submit-update]. *)
Record ModelUpdatePayload : Type := {
  feature_attributions : gmap string float;
  user_id : string
}.

(** [DashboardDataPoint]: the table row and the response model.  [id]
    is [None] until the store assigns the primary key. *)
Record DashboardDataPoint : Type := {
  id : option Z;
  timestamp : string;
  avg_text_importance : float;
  avg_typing_importance : float;
  avg_voice_importance : float
}.

(** The three features, and the dictionary key of each. *)
Inductive Feature : Type := Text | Typing | Voice.

Definition key (f : Feature) : string :=
  match f with Text => "text" | Typing => "typing" | Voice => "voice" end.

(** [global_model_weights] is a [dict] whose key set is fixed at
    ["text"], ["typing"], ["voice"]: the program only reads and assigns
    these three items.  It is a record with one field per key. *)
Record Weights : Type := {
  text : float;
  typing : float;
  voice : float
}.

Definition weight (f : Feature) (w : Weights) : float :=
  match f with Text => text w | Typing => typing w | Voice => voice w end.

Definition set_weight (f : Feature) (v : float) (w : Weights) : Weights :=
  match f with
  | Text => {| text := v; typing := typing w; voice := voice w |}
  | Typing => {| text := text w; typing := v; voice := voice w |}
  | Voice => {| text := text w; typing := typing w; voice := v |}
  end.

(** [datetime]: a naive calendar time, as [datetime.now()] returns it. *)
Record datetime : Type := {
  year : N; month : N; day : N;
  hour : N; minute : N; second : N; microsecond : N
}.

(** What one request takes from outside the program. *)
Record Env : Type := {
  laplace_text : float;     (* first  [np.random.laplace(0, scale)] *)
  laplace_typing : float;   (* second [np.random.laplace(0, scale)] *)
  laplace_voice : float;    (* third  [np.random.laplace(0, scale)] *)
  now : datetime;           (* [datetime.now()] *)
  commit_ok : bool          (* does [session.commit()] succeed? *)
}.

(** The state the handlers share: the two globals, the table of
    [hush.db] in insertion order, and the lines that the [print] calls
    of [main.py] have written so far.  The engine is created with
    [echo=True]; the statement log that the library then writes is not
    part of [console]. *)
Record Server : Type := {
  global_model_weights : Weights;
  global_update_count : Z;
  hush_db : list DashboardDataPoint;
  console : list string
}.

(* ================================================================= *)
(** ** Exceptions and the handler monad *)

Inductive exn : Type :=
  | ZeroDivisionError   (* float division by zero *)
  | OverflowError       (* int too large to convert to float *)
  | OperationalError.   (* the store refused the commit *)

Inductive result (A : Type) : Type :=
  | Ok (a : A)
  | Raise (e : exn).
Arguments Ok {A} a.
Arguments Raise {A} e.

(** A handler step transforms the server state and returns a value or
    raises; what was assigned before a [raise] stays assigned. *)
Definition M (A : Type) : Type := Server -> Server * result A.

Definition ret {A} (a : A) : M A := fun s => (s, Ok a).

Definition raise {A} (e : exn) : M A := fun s => (s, Raise e).

Definition bind {A B} (m : M A) (k : A -> M B) : M B :=
  fun s =>
    match m s with
    | (s', Ok a) => k a s'
    | (s', Raise e) => (s', Raise e)
    end.

Definition gets {A} (f : Server -> A) : M A := fun s => (s, Ok (f s)).

Definition modify (f : Server -> Server) : M unit := fun s => (f s, Ok tt).

Declare Scope py_scope.
Delimit Scope py_scope with py.
Notation "x <- m ;; k" := (bind m (fun x => k))
  (at level 100, m at next level, right associativity) : py_scope.
Notation "m ;; k" := (bind m (fun _ => k))
  (at level 100, right associativity) : py_scope.
Local Open Scope py_scope.

(* ----------------------------------------------------------------- *)
(** *** Mixed arithmetic of Python *)

(** [float(n)] for an [int] operand of a float operation:
    round to nearest even, [OverflowError] beyond the largest float. *)
Definition int_to_float (n : Z) : M float :=
  match Z2F n with
  | S754_infinity _ => raise OverflowError
  | x => ret x
  end.

(** [x * n] with [x] a float and [n] an int. *)
Definition float_mul_int (x : float) (n : Z) : M float :=
  y <- int_to_float n ;;
  ret (fmul x y).

(** [x / n] with [x] a float and [n] an int. *)
Definition float_truediv_int (x : float) (n : Z) : M float :=
  y <- int_to_float n ;;
  if is_zero y then raise ZeroDivisionError else ret (fdiv x y).

(* ----------------------------------------------------------------- *)
(** *** Assignments to the globals, and [print] *)

Definition set_global_update_count (c : Z) : M unit :=
  modify (fun s =>
    {| global_model_weights := global_model_weights s;
       global_update_count := c;
       hush_db := hush_db s;
       console := console s |}).

(** [global_model_weights[key f] = v] *)
Definition set_global_model_weight (f : Feature) (v : float) : M unit :=
  modify (fun s =>
    {| global_model_weights := set_weight f v (global_model_weights s);
       global_update_count := global_update_count s;
       hush_db := hush_db s;
       console := console s |}).

Definition print (line : string) : M unit :=
  modify (fun s =>
    {| global_model_weights := global_model_weights s;
       global_update_count := global_update_count s;
       hush_db := hush_db s;
       console := console s ++ [line] |}).

(* ================================================================= *)
(** ** The store *)

(** [with_id i r]: the row [r] as stored under primary key [i]. *)
Definition with_id (i : Z) (r : DashboardDataPoint) : DashboardDataPoint :=
  {| id := Some i;
     timestamp := timestamp r;
     avg_text_importance := avg_text_importance r;
     avg_typing_importance := avg_typing_importance r;
     avg_voice_importance := avg_voice_importance r |}.

(** The key SQLite assigns to a new row of an [INTEGER PRIMARY KEY]
    table: one more than the largest key present, 1 in an empty table. *)
Definition next_id (rows : list DashboardDataPoint) : Z :=
  1 + fold_right Z.max 0 (map (fun r => default 0 (id r)) rows).

Fixpoint assign_ids (i : Z) (pending : list DashboardDataPoint)
  : list DashboardDataPoint :=
  match pending with
  | [] => []
  | r :: pending' => with_id i r :: assign_ids (i + 1) pending'
  end.

(** [session.add(r1); ...; session.add(rn); session.commit()].  The
    pending rows reach the table in one transaction: all of them when
    the commit succeeds, none when it raises.  The rows are returned as
    stored, which is what [session.refresh] then loads.  Whether the
    store takes the commit is the input [ok]; its reasons (a full disk,
    a value the schema refuses, such as NaN in a [NOT NULL] column) are
    not modelled, nor are the way the store encodes a float (the sign
    of a zero is not kept) and a failure of [refresh] after the commit:
    the statements below that speak of the table speak of commits
    taken and refused. *)
Definition session_commit (pending : list DashboardDataPoint) (ok : bool)
  : M (list DashboardDataPoint) :=
  if ok then
    rows <- gets hush_db ;;
    let saved := assign_ids (next_id rows) pending in
    modify (fun s =>
      {| global_model_weights := global_model_weights s;
         global_update_count := global_update_count s;
         hush_db := rows ++ saved;
         console := console s |}) ;;
    ret saved
  else raise OperationalError.

(** [ORDER BY timestamp]: SQLite compares [TEXT] values byte by byte,
    which is [String.leb].  The column is indexed ([index=True]) and the
    index holds the rows of one timestamp in the order of their keys,
    so rows with equal timestamps come out in insertion order: the sort
    is the stable one. *)
Definition timestamp_leb (x y : DashboardDataPoint) : bool :=
  String.leb (timestamp x) (timestamp y).

Fixpoint insert_by_timestamp (r : DashboardDataPoint)
  (sorted : list DashboardDataPoint) : list DashboardDataPoint :=
  match sorted with
  | [] => [r]
  | r' :: sorted' =>
      if timestamp_leb r r' then r :: sorted
      else r' :: insert_by_timestamp r sorted'
  end.

Definition order_by_timestamp (rows : list DashboardDataPoint)
  : list DashboardDataPoint :=
  fold_right insert_by_timestamp [] rows.

(* ================================================================= *)
(** ** [datetime.isoformat()] *)

(** The [w] low decimal digits of [n], most significant first: what
    [%0wd] prints for [n < 10^w]. *)
Fixpoint zero_padded (w : nat) (n : N) : string :=
  match w with
  | O => EmptyString
  | S w' =>
      zero_padded w' (n / 10)%N ++ String (ascii_of_N (48 + n mod 10)%N) EmptyString
  end.

(** [YYYY-MM-DDTHH:MM:SS.ffffff], and [YYYY-MM-DDTHH:MM:SS] when the
    microsecond field is 0; a naive [datetime] prints no UTC offset. *)
Definition isoformat (d : datetime) : string :=
  zero_padded 4 (year d) ++ "-" ++ zero_padded 2 (month d) ++ "-" ++
  zero_padded 2 (day d) ++ "T" ++ zero_padded 2 (hour d) ++ ":" ++
  zero_padded 2 (minute d) ++ ":" ++ zero_padded 2 (second d) ++
  (if (microsecond d =? 0)%N then EmptyString
   else "." ++ zero_padded 6 (microsecond d)).

(* ================================================================= *)
(** ** Module level: the globals at process start *)

Definition initial_weights : Weights :=
  {| text := f0_33; typing := f0_33; voice := f0_34 |}.

(** The state of a process that has just imported [main.py], over the
    table [rows] found in [hush.db]. *)
Definition module_init (rows : list DashboardDataPoint) : Server :=
  {| global_model_weights := initial_weights;
     global_update_count := 0;
     hush_db := rows;
     console := [] |}.

(* ================================================================= *)
(** ** [lifespan]: the startup routine *)

Definition db_data : list DashboardDataPoint :=
  [ {| id := None; timestamp := "2025-11-01T10:00:00Z";
       avg_text_importance := f0_4; avg_typing_importance := f0_4;
       avg_voice_importance := f0_2 |};
    {| id := None; timestamp := "2025-11-01T11:00:00Z";
       avg_text_importance := f0_42; avg_typing_importance := f0_38;
       avg_voice_importance := f0_2 |};
    {| id := None; timestamp := "2025-11-01T12:00:00Z";
       avg_text_importance := f0_38; avg_typing_importance := f0_45;
       avg_voice_importance := f0_17 |} ].

(** The part of [lifespan] before [yield].  [create_db_and_tables()]
    leaves the rows of an existing table alone, so it is the identity
    on the model; it and the [SELECT] are taken to succeed.  [.first()]
    is the first row or [None]; a row object is always truthy, so the
    test is whether the table is empty. *)
Definition lifespan (ok : bool) : M unit :=
  print "Server starting up..." ;;
  rows <- gets hush_db ;;
  match hd_error rows with
  | None =>
      print "Database is empty, pre-populating with mock data..." ;;
      _ <- session_commit db_data ok ;;
      print "Mock data populated."
  | Some _ => ret tt
  end.

(* ================================================================= *)
(** ** The endpoints *)

Definition read_root : M string := ret "HUSH Backend is running.".

Record SubmitResponse : Type := {
  status : string;
  new_data_point : DashboardDataPoint
}.

(** Lines 119-121, for one feature:
    [global_model_weights[k] = (global_model_weights[k] * (total - 1) + noisy) / total] *)
Definition fedavg (f : Feature) (total : Z) (noisy : float) : M unit :=
  w <- gets global_model_weights ;;
  a <- float_mul_int (weight f w) (total - 1) ;;
  q <- float_truediv_int (fadd a noisy) total ;;
  set_global_model_weight f q.

(** [payload.feature_attributions.get(k, 0)]; the default [0] is an
    [int] that the addition of the noise converts to [0.0]. *)
Definition get_attribution (payload : ModelUpdatePayload) (k : string) : float :=
  default f0_0 (feature_attributions payload !! k).

Definition submit_model_update (payload : ModelUpdatePayload) (env : Env)
  : M SubmitResponse :=
  (* 1. DP Sim: [scale = 0.1] shapes the three draws, which [env] holds *)
  let noisy_text := fadd (get_attribution payload "text") (laplace_text env) in
  let noisy_typing := fadd (get_attribution payload "typing") (laplace_typing env) in
  let noisy_voice := fadd (get_attribution payload "voice") (laplace_voice env) in
  (* 2. FL Sim *)
  c <- gets global_update_count ;;
  let total := c + 1 in
  set_global_update_count (Z.max 1 c) ;;
  fedavg Text total noisy_text ;;
  fedavg Typing total noisy_typing ;;
  fedavg Voice total noisy_voice ;;
  set_global_update_count total ;;
  (* 3. DB Sim *)
  w <- gets global_model_weights ;;
  let new_data_point :=
    {| id := None;
       timestamp := isoformat (now env);
       avg_text_importance := text w;
       avg_typing_importance := typing w;
       avg_voice_importance := voice w |} in
  saved <- session_commit [new_data_point] (commit_ok env) ;;
  let new_data_point := hd new_data_point saved in
  print ("Processed and saved update from " ++ user_id payload) ;;
  ret {| status := "update received and saved";
         new_data_point := new_data_point |}.

(** The same handler without line 118, the clamp
    [global_update_count = max(1, global_update_count)]. *)
Definition submit_model_update_without_clamp
  (payload : ModelUpdatePayload) (env : Env) : M SubmitResponse :=
  let noisy_text := fadd (get_attribution payload "text") (laplace_text env) in
  let noisy_typing := fadd (get_attribution payload "typing") (laplace_typing env) in
  let noisy_voice := fadd (get_attribution payload "voice") (laplace_voice env) in
  c <- gets global_update_count ;;
  let total := c + 1 in
  fedavg Text total noisy_text ;;
  fedavg Typing total noisy_typing ;;
  fedavg Voice total noisy_voice ;;
  set_global_update_count total ;;
  w <- gets global_model_weights ;;
  let new_data_point :=
    {| id := None;
       timestamp := isoformat (now env);
       avg_text_importance := text w;
       avg_typing_importance := typing w;
       avg_voice_importance := voice w |} in
  saved <- session_commit [new_data_point] (commit_ok env) ;;
  let new_data_point := hd new_data_point saved in
  print ("Processed and saved update from " ++ user_id payload) ;;
  ret {| status := "update received and saved";
         new_data_point := new_data_point |}.

Definition get_dashboard_data : M (list DashboardDataPoint) :=
  rows <- gets hush_db ;;
  ret (order_by_timestamp rows).

(* ================================================================= *)
(** ** The running server *)

Inductive request : Type :=
  | GET_root
  | POST_submit_update (payload : ModelUpdatePayload) (env : Env)
  | GET_dashboard_data.

Inductive response : Type :=
  | RootStatus (status : string)
  | UpdateSaved (body : SubmitResponse)
  | DashboardData (rows : list DashboardDataPoint).

Definition serve (r : request) : M response :=
  match r with
  | GET_root => s <- read_root ;; ret (RootStatus s)
  | POST_submit_update payload env =>
      b <- submit_model_update payload env ;; ret (UpdateSaved b)
  | GET_dashboard_data => rows <- get_dashboard_data ;; ret (DashboardData rows)
  end.

(** The requests are served one after the other; a request that raises
    is answered with an error and the process goes on.  An answer is
    what the handler returns or raises: the encoding of the returned
    value by the framework, and the interleaving of handlers that run
    on a pool of threads, are not modelled. *)
Fixpoint run (reqs : list request) (s : Server) : Server * list (result response) :=
  match reqs with
  | [] => (s, [])
  | r :: reqs' =>
      let '(s1, out) := serve r s in
      let '(s2, outs) := run reqs' s1 in
      (s2, out :: outs)
  end.

(** The number of updates that were accepted, that is answered with
    the saved snapshot. *)
Fixpoint accepted (outs : list (result response)) : nat :=
  match outs with
  | [] => 0
  | Ok (UpdateSaved _) :: outs' => S (accepted outs')
  | _ :: outs' => accepted outs'
  end.

(* ================================================================= *)
(** ** Names used in the statements *)

(** The formula of the specification,
    [(old_average * (n - 1) + noisy_value) / n], in float arithmetic
    with the two integers converted as Python converts them. *)
Definition incremental_mean (old_average : float) (n : Z) (noisy_value : float)
  : float :=
  fdiv (fadd (fmul old_average (Z2F (n - 1))) noisy_value) (Z2F n).

(** Does [float(n)] return, rather than raise [OverflowError]? *)
Definition convertible (n : Z) : bool :=
  match Z2F n with S754_infinity _ => false | _ => true end.

Definition laplace (f : Feature) (env : Env) : float :=
  match f with
  | Text => laplace_text env
  | Typing => laplace_typing env
  | Voice => laplace_voice env
  end.

(** The value the handler folds in for feature [f]. *)
Definition noisy (payload : ModelUpdatePayload) (env : Env) (f : Feature) : float :=
  fadd (get_attribution payload (key f)) (laplace f env).

(** The in-memory aggregation state: the two globals. *)
Definition aggregation_state (s : Server) : Weights * Z :=
  (global_model_weights s, global_update_count s).

(** What the arithmetic of lines 119-121 does at update count [c]:
    the exception it raises, if any.  The three lines convert the same
    two integers, so the first of them decides. *)
Definition arithmetic_error (c : Z) : option exn :=
  let total := c + 1 in
  if negb (convertible (total - 1)) || negb (convertible total)
  then Some OverflowError
  else if is_zero (Z2F total) then Some ZeroDivisionError
  else None.

(** The state after line 118 alone. *)
Definition clamped (s : Server) : Server :=
  {| global_model_weights := global_model_weights s;
     global_update_count := Z.max 1 (global_update_count s);
     hush_db := hush_db s;
     console := console s |}.

(** The three averages after lines 119-121. *)
Definition averaged (payload : ModelUpdatePayload) (env : Env) (s : Server)
  : Weights :=
  let w := global_model_weights s in
  let total := global_update_count s + 1 in
  {| text := incremental_mean (text w) total (noisy payload env Text);
     typing := incremental_mean (typing w) total (noisy payload env Typing);
     voice := incremental_mean (voice w) total (noisy payload env Voice) |}.

(** The state after line 122. *)
Definition aggregated (payload : ModelUpdatePayload) (env : Env) (s : Server)
  : Server :=
  {| global_model_weights := averaged payload env s;
     global_update_count := global_update_count s + 1;
     hush_db := hush_db s;
     console := console s |}.

(** The row of this update, as stored. *)
Definition snapshot (payload : ModelUpdatePayload) (env : Env) (s : Server)
  : DashboardDataPoint :=
  {| id := Some (next_id (hush_db s));
     timestamp := isoformat (now env);
     avg_text_importance := text (averaged payload env s);
     avg_typing_importance := typing (averaged payload env s);
     avg_voice_importance := voice (averaged payload env s) |}.

(** The state after the whole handler has run. *)
Definition saved (payload : ModelUpdatePayload) (env : Env) (s : Server)
  : Server :=
  {| global_model_weights := averaged payload env s;
     global_update_count := global_update_count s + 1;
     hush_db := hush_db s ++ [snapshot payload env s];
     console :=
       console s ++ ["Processed and saved update from " ++ user_id payload] |}.

(** The column of a row that holds the average of feature [f]. *)
Definition importance (f : Feature) (r : DashboardDataPoint) : float :=
  match f with
  | Text => avg_text_importance r
  | Typing => avg_typing_importance r
  | Voice => avg_voice_importance r
  end.

(** Inputs at which the statements below are evaluated. *)

Definition noon_and_a_half : datetime :=
  {| year := 2025; month := 11; day := 1;
     hour := 12; minute := 0; second := 0; microsecond := 500000 |}.

(** Three in the morning of the same day, on the second. *)
Definition three_in_the_morning : datetime :=
  {| year := 2025; month := 11; day := 1;
     hour := 3; minute := 0; second := 0; microsecond := 0 |}.

(** No noise, and a store that accepts the commit or not. *)
Definition quiet (ok : bool) : Env :=
  {| laplace_text := f0_0; laplace_typing := f0_0; laplace_voice := f0_0;
     now := noon_and_a_half; commit_ok := ok |}.

(** [{"feature_attributions": {"text": 1.0}, "user_id": "anon-12345"}] *)
Definition text_only : ModelUpdatePayload :=
  {| feature_attributions := {[ "text" := f1_0 ]}; user_id := "anon-12345" |}.

(** The same attributions with one more key, from another user. *)
Definition text_and_more : ModelUpdatePayload :=
  {| feature_attributions := {[ "text" := f1_0; "mood" := f2_0 ]};
     user_id := "anon-67890" |}.

(** [{"feature_attributions": {"text": 0.4, "voice": 0.2}, "user_id": "anon-12345"}] *)
Definition text_and_voice : ModelUpdatePayload :=
  {| feature_attributions := {[ "text" := f0_4; "voice" := f0_2 ]};
     user_id := "anon-12345" |}.

(** A state no run reaches: the update count is [-1]. *)
Definition minus_one : Server :=
  {| global_model_weights := initial_weights;
     global_update_count := -1;
     hush_db := [];
     console := [] |}.

(* ================================================================= *)
(** ** Names used in the further statements *)

(** The two [GET] endpoints. *)
Definition reads_only (r : request) : bool :=
  match r with
  | POST_submit_update _ _ => false
  | _ => true
  end.

(** The primary keys of the table are 1, 2, ..., in insertion order. *)
Definition dense_ids (rows : list DashboardDataPoint) : Prop :=
  map id rows = map (fun i => Some (Z.of_nat i)) (seq 1 (length rows)).

(** The field ranges of a [datetime] object. *)
Definition valid_datetime (d : datetime) : Prop :=
  (1 <= year d <= 9999 /\ 1 <= month d <= 12 /\ 1 <= day d <= 31 /\
   hour d < 24 /\ minute d < 60 /\ second d < 60 /\ microsecond d < 1000000)%N.

(** [d1 < d2] on naive datetimes: field by field, year first. *)
Definition earlier (d1 d2 : datetime) : Prop :=
  (year d1 < year d2 \/ year d1 = year d2 /\
   (month d1 < month d2 \/ month d1 = month d2 /\
    (day d1 < day d2 \/ day d1 = day d2 /\
     (hour d1 < hour d2 \/ hour d1 = hour d2 /\
      (minute d1 < minute d2 \/ minute d1 = minute d2 /\
       (second d1 < second d2 \/ second d1 = second d2 /\
        microsecond d1 < microsecond d2))))))%N.

(** No noise, the clock at three in the morning, a store that accepts. *)
Definition quiet_at_three : Env :=
  {| laplace_text := f0_0; laplace_typing := f0_0; laplace_voice := f0_0;
     now := three_in_the_morning; commit_ok := true |}.

(** [{"feature_attributions": {"text": NaN}, "user_id": "anon-12345"}] *)
Definition text_nan : ModelUpdatePayload :=
  {| feature_attributions := {[ "text" := S754_nan ]}; user_id := "anon-12345" |}.

(* ================================================================= *)
(** * Properties *)

(* ================================================================= *)
(** ** Binary64 facts *)

Section Binary64.

(** Rounding a canonical mantissa leaves it as it is. *)
Lemma round_canonical (s : bool) (m : positive) (e : Z) :
  fexp prec emax (Z.pos (digits2_pos m) + e) = e ->
  e <= emax - prec ->
  binary_round_aux prec emax s (Z.pos m) e loc_Exact = S754_finite s m e.
Proof.
  intros Hc Hb. unfold binary_round_aux, shr_fexp.
  cbn [Zdigits2]. rewrite Hc, Z.sub_diag.
  cbn [shr shr_record_of_loc shr_m loc_of_shr_record round_nearest_even Zdigits2].
  rewrite Hc, Z.sub_diag. cbn [shr shr_m].
  apply Z.leb_le in Hb. rewrite Hb. reflexivity.
Qed.

(** The same with one spare low bit, which the first shift removes. *)
Lemma round_canonical_double (s : bool) (m : positive) (e : Z) :
  fexp prec emax (Z.pos (digits2_pos m) + e) = e ->
  e <= emax - prec ->
  binary_round_aux prec emax s (Z.pos m~0) (e - 1) loc_Exact = S754_finite s m e.
Proof.
  intros Hc Hb. unfold binary_round_aux, shr_fexp.
  cbn [Zdigits2 digits2_pos]. rewrite Pos2Z.inj_succ.
  replace (Z.succ (Z.pos (digits2_pos m)) + (e - 1))
    with (Z.pos (digits2_pos m) + e) by lia.
  rewrite Hc. replace (e - (e - 1)) with 1 by lia.
  cbn [shr shr_record_of_loc SpecFloat.iter_pos shr_1 orb shr_m loc_of_shr_record
       round_nearest_even Zdigits2].
  replace (e - 1 + 1) with e by lia.
  rewrite Hc, Z.sub_diag. cbn [shr shr_m].
  apply Z.leb_le in Hb. rewrite Hb. reflexivity.
Qed.

Lemma is_float_finite (s : bool) (m : positive) (e : Z) :
  is_float (S754_finite s m e) = true ->
  fexp prec emax (Z.pos (digits2_pos m) + e) = e /\ e <= emax - prec.
Proof.
  unfold is_float, valid_binary, bounded, canonical_mantissa.
  intros H. apply andb_true_iff in H. destruct H as [Hc Hb].
  apply Z.eqb_eq in Hc. apply Z.leb_le in Hb. auto.
Qed.

(** [x * 1.0] is [x]. *)
Lemma fmul_1_r (x : float) : is_float x = true -> fmul x f1_0 = x.
Proof.
  intros H. destruct x as [s|s| |s m e]; [destruct s; reflexivity..|reflexivity|].
  apply is_float_finite in H. destruct H as [Hc Hb].
  unfold fmul, SFmul, f1_0. rewrite xorb_false_r.
  unfold binary_round_aux, shr_fexp.
  rewrite Pos.mul_comm.
  cbv [Pos.mul]. cbn [Zdigits2 digits2_pos].
  rewrite !Pos2Z.inj_succ.
  replace (fexp prec emax _ - (e + -52)) with 52.
  2:{ match goal with
      | |- _ = fexp _ _ ?a - _ =>
          replace a with (Z.pos (digits2_pos m) + e) by lia
      end.
      rewrite Hc. lia. }
  cbn [shr shr_record_of_loc SpecFloat.iter_pos shr_1 orb].
  cbn [shr_m loc_of_shr_record round_nearest_even Zdigits2].
  replace (e + -52 + 52) with e by lia.
  rewrite Hc, Z.sub_diag. cbn [shr shr_record_of_loc shr_m].
  apply Z.leb_le in Hb. rewrite Hb. reflexivity.
Qed.

(** Dividing the mantissa [m] at exponent [e] by [1.0]: the quotient
    is [m] itself, or [2 m] one exponent lower, and it is exact. *)
Lemma div_core_1 (m : positive) (e : Z) :
  fexp prec emax (Z.pos (digits2_pos m) + e) = e ->
  SFdiv_core_binary prec emax (Z.pos m) e 4503599627370496 (-52)
    = (Z.pos m~0, e - 1, loc_Exact)
  \/ SFdiv_core_binary prec emax (Z.pos m) e 4503599627370496 (-52)
    = (Z.pos m, e, loc_Exact).
Proof.
  intros Hc. unfold SFdiv_core_binary.
  change (Zdigits2 4503599627370496) with 53.
  cbn [Zdigits2].
  set (d := Z.pos (digits2_pos m)) in *.
  unfold fexp, emin, prec, emax in *.
  assert (Hd : 0 < d) by (unfold d; lia).
  destruct (Z_lt_le_dec (-1074) e) as [Hn|Hs].
  - left.
    replace (Z.min _ _) with (e - 1) by lia.
    replace (e - -52 - (e - 1)) with 53 by lia.
    rewrite Z.shiftl_mul_pow2 by lia.
    replace (Z.pos m * 2 ^ 53) with (Z.pos m~0 * 4503599627370496)
      by (rewrite (Pos2Z.inj_xO m); lia).
    destruct (Z.div_eucl _ _) as [q r] eqn:E.
    assert (Hq : q = Z.pos m~0).
    { change q with (fst (q, r)). rewrite <- E.
      apply (Z.div_mul (Z.pos m~0) 4503599627370496). lia. }
    assert (Hr : r = 0).
    { change r with (snd (q, r)). rewrite <- E.
      apply (Z.mod_mul (Z.pos m~0) 4503599627370496). lia. }
    subst. reflexivity.
  - right.
    replace (Z.min _ _) with e by lia.
    replace (e - -52 - e) with 52 by lia.
    rewrite Z.shiftl_mul_pow2 by lia.
    change (2 ^ 52) with 4503599627370496.
    destruct (Z.div_eucl _ _) as [q r] eqn:E.
    assert (Hq : q = Z.pos m).
    { change q with (fst (q, r)). rewrite <- E.
      apply (Z.div_mul (Z.pos m) 4503599627370496). lia. }
    assert (Hr : r = 0).
    { change r with (snd (q, r)). rewrite <- E.
      apply (Z.mod_mul (Z.pos m) 4503599627370496). lia. }
    subst. reflexivity.
Qed.

(** [x / 1.0] is [x]. *)
Lemma fdiv_1_r (x : float) : is_float x = true -> fdiv x f1_0 = x.
Proof.
  intros H. destruct x as [s|s| |s m e]; [destruct s; reflexivity..|reflexivity|].
  apply is_float_finite in H. destruct H as [Hc Hb].
  unfold fdiv, SFdiv, f1_0. rewrite xorb_false_r.
  destruct (div_core_1 m e Hc) as [E|E]; rewrite E.
  - now apply round_canonical_double.
  - now apply round_canonical.
Qed.

(** [x + 0.0] is [x], but for [-0.0 + 0.0 = 0.0]. *)
Lemma fadd_0_r (x : float) : fadd x f0_0 = plus_zero x.
Proof. destruct x as [[]|[]| |]; reflexivity. Qed.

Lemma fadd_0_plus_zero (x : float) : fadd f0_0 (plus_zero x) = plus_zero x.
Proof. destruct x as [[]|[]| |]; reflexivity. Qed.

Lemma is_float_plus_zero (x : float) :
  is_float x = true -> is_float (plus_zero x) = true.
Proof. destruct x; auto. Qed.

(** The sign of a zero operand does not change the number a sum
    denotes, nor does the sign of a zero dividend. *)
Lemma fadd_plus_zero (x y : float) :
  plus_zero (fadd (plus_zero x) (plus_zero y)) = plus_zero (fadd x y).
Proof. destruct x as [[]|[]| |], y as [[]|[]| |]; reflexivity. Qed.

Lemma fdiv_plus_zero (x : float) :
  plus_zero (fdiv (plus_zero x) f2_0) = plus_zero (fdiv x f2_0).
Proof. destruct x as [[]|[]| |]; reflexivity. Qed.

Lemma plus_zero_idem (x : float) : plus_zero (plus_zero x) = plus_zero x.
Proof. destruct x; reflexivity. Qed.

(** Integers below [2^53] convert to finite floats. *)
Lemma digits2_pos_iter_xO (m p : positive) :
  Z.pos (digits2_pos (Pos.iter xO m p)) = Z.pos (digits2_pos m) + Z.pos p.
Proof.
  induction p as [|p IH] using Pos.peano_ind.
  - cbn [Pos.iter digits2_pos]. lia.
  - rewrite Pos.iter_succ. cbn [digits2_pos]. lia.
Qed.

Lemma digits2_pos_lower (m : positive) :
  2 ^ (Z.pos (digits2_pos m) - 1) <= Z.pos m.
Proof.
  induction m as [m IH|m IH|]; cbn [digits2_pos].
  - rewrite Pos2Z.inj_succ. change (Z.pos m~1) with (2 * Z.pos m + 1).
    replace (Z.succ (Z.pos (digits2_pos m)) - 1)
      with (Z.succ (Z.pos (digits2_pos m) - 1)) by lia.
    rewrite Z.pow_succ_r by lia. lia.
  - rewrite Pos2Z.inj_succ. change (Z.pos m~0) with (2 * Z.pos m).
    replace (Z.succ (Z.pos (digits2_pos m)) - 1)
      with (Z.succ (Z.pos (digits2_pos m) - 1)) by lia.
    rewrite Z.pow_succ_r by lia. lia.
  - reflexivity.
Qed.

Lemma digits2_pos_53 (m : positive) :
  Z.pos m < 2 ^ 53 -> Z.pos (digits2_pos m) <= 53.
Proof.
  intros Hm.
  destruct (Z_le_gt_dec (Z.pos (digits2_pos m)) 53) as [H|H]; [exact H|].
  pose proof (digits2_pos_lower m) as L.
  assert (2 ^ 53 <= 2 ^ (Z.pos (digits2_pos m) - 1))
    by (apply Z.pow_le_mono_r; lia).
  lia.
Qed.

Lemma Z2F_pos (m : positive) :
  Z.pos m < 2 ^ 53 ->
  exists m' e', Z2F (Z.pos m) = S754_finite false m' e'.
Proof.
  intros Hm. apply digits2_pos_53 in Hm.
  unfold Z2F, binary_normalize, binary_round.
  set (d := Z.pos (digits2_pos m)) in *.
  assert (Hd : 0 < d) by (unfold d; lia).
  assert (Hf : fexp prec emax (d + 0) = d - 53).
  { unfold fexp, emin, prec, emax. lia. }
  rewrite Hf. unfold shl_align.
  destruct (d - 53 - 0) as [|p|p] eqn:E; try lia.
  - exists m, 0. apply round_canonical.
    + fold d. rewrite Hf. lia.
    + unfold emax, prec. lia.
  - exists (Pos.iter xO m p), (d - 53). apply round_canonical.
    + rewrite digits2_pos_iter_xO. fold d.
      unfold fexp, emin, prec, emax. lia.
    + unfold emax, prec. lia.
Qed.

(** Up to [2^53 - 2] updates the arithmetic of the handler raises
    nothing. *)
Lemma arithmetic_in_range (c : Z) :
  0 <= c < 2 ^ 53 - 1 -> arithmetic_error c = None.
Proof.
  intros Hc. unfold arithmetic_error, convertible.
  replace (c + 1 - 1) with c by lia.
  assert (H1 : exists m e, Z2F (c + 1) = S754_finite false m e).
  { destruct (c + 1) as [|q|q] eqn:E; try lia. apply Z2F_pos. lia. }
  destruct H1 as (m1 & e1 & ->).
  destruct c as [|q|q]; try lia.
  - reflexivity.
  - destruct (Z2F_pos q) as (m0 & e0 & ->); [lia|reflexivity].
Qed.

(** The decimal literals of [main.py], and the integers the first two
    updates convert. *)
Lemma literals :
  Z2F 0 = f0_0 /\ Z2F 1 = f1_0 /\ Z2F 2 = f2_0 /\
  f0_33 = decimal 33 2 /\ f0_34 = decimal 34 2 /\ f0_4 = decimal 4 1 /\
  f0_2 = decimal 2 1 /\ f0_42 = decimal 42 2 /\ f0_38 = decimal 38 2 /\
  f0_45 = decimal 45 2 /\ f0_17 = decimal 17 2.
Proof. repeat split; vm_compute; reflexivity. Qed.

End Binary64.

(* ================================================================= *)
(** ** The update handler, step by step *)

Section Handler.

Lemma int_to_float_eq (n : Z) (s : Server) :
  int_to_float n s
  = (s, if convertible n then Ok (Z2F n) else Raise OverflowError).
Proof. unfold int_to_float, convertible. destruct (Z2F n); reflexivity. Qed.

(** One run of lines 119-121 for one feature. *)
Lemma fedavg_eq (f : Feature) (total : Z) (noisy_value : float) (s : Server) :
  fedavg f total noisy_value s =
  if negb (convertible (total - 1)) || negb (convertible total)
  then (s, Raise OverflowError)
  else if is_zero (Z2F total) then (s, Raise ZeroDivisionError)
  else
    ({| global_model_weights :=
          set_weight f
            (incremental_mean (weight f (global_model_weights s)) total noisy_value)
            (global_model_weights s);
        global_update_count := global_update_count s;
        hush_db := hush_db s;
        console := console s |}, Ok tt).
Proof.
  unfold fedavg, float_mul_int, float_truediv_int, set_global_model_weight.
  unfold bind, gets, modify, ret. rewrite !int_to_float_eq.
  destruct (convertible (total - 1)); [|reflexivity].
  rewrite int_to_float_eq.
  destruct (convertible total); [|reflexivity].
  cbn [negb orb]. destruct (is_zero (Z2F total)); reflexivity.
Qed.

(** The whole handler in closed form. *)
Lemma submit_model_update_eq (payload : ModelUpdatePayload) (env : Env) (s : Server) :
  submit_model_update payload env s =
  match arithmetic_error (global_update_count s) with
  | Some e => (clamped s, Raise e)
  | None =>
      if commit_ok env
      then (saved payload env s,
            Ok {| status := "update received and saved";
                  new_data_point := snapshot payload env s |})
      else (aggregated payload env s, Raise OperationalError)
  end.
Proof.
  unfold submit_model_update, arithmetic_error.
  unfold bind at 1. unfold gets at 1.
  unfold bind at 1. unfold set_global_update_count at 1. unfold modify at 1.
  unfold bind at 1. rewrite fedavg_eq.
  cbn [global_update_count global_model_weights hush_db console].
  destruct (negb (convertible (global_update_count s + 1 - 1))
            || negb (convertible (global_update_count s + 1))) eqn:Hconv;
    [reflexivity|].
  destruct (is_zero (Z2F (global_update_count s + 1))) eqn:Hz; [reflexivity|].
  unfold bind at 1. rewrite fedavg_eq, Hconv, Hz.
  unfold bind at 1. rewrite fedavg_eq, Hconv, Hz.
  unfold session_commit.
  destruct (commit_ok env); reflexivity.
Qed.

Lemma submit_model_update_without_clamp_eq
  (payload : ModelUpdatePayload) (env : Env) (s : Server) :
  submit_model_update_without_clamp payload env s =
  match arithmetic_error (global_update_count s) with
  | Some e => (s, Raise e)
  | None =>
      if commit_ok env
      then (saved payload env s,
            Ok {| status := "update received and saved";
                  new_data_point := snapshot payload env s |})
      else (aggregated payload env s, Raise OperationalError)
  end.
Proof.
  unfold submit_model_update_without_clamp, arithmetic_error.
  unfold bind at 1. unfold gets at 1.
  unfold bind at 1. rewrite fedavg_eq.
  destruct (negb (convertible (global_update_count s + 1 - 1))
            || negb (convertible (global_update_count s + 1))) eqn:Hconv;
    [destruct s; reflexivity|].
  destruct (is_zero (Z2F (global_update_count s + 1))) eqn:Hz;
    [destruct s; reflexivity|].
  unfold bind at 1. rewrite fedavg_eq.
  cbn [global_update_count global_model_weights hush_db console].
  rewrite Hconv, Hz.
  unfold bind at 1. rewrite fedavg_eq.
  cbn [global_update_count global_model_weights hush_db console].
  rewrite Hconv, Hz.
  unfold session_commit.
  destruct (commit_ok env); reflexivity.
Qed.

End Handler.

(* ================================================================= *)
(** ** The update count *)

Section UpdateCount.

(** Startup leaves the two globals alone. *)
Lemma lifespan_aggregation_state (ok : bool) (s : Server) :
  aggregation_state (fst (lifespan ok s)) = aggregation_state s.
Proof.
  unfold lifespan, bind, print, gets, modify, session_commit, ret, raise.
  cbn [hush_db]. destruct (hd_error (hush_db s)); [reflexivity|].
  destruct ok; reflexivity.
Qed.

Lemma started_at_zero (ok : bool) (rows : list DashboardDataPoint) :
  global_update_count (fst (lifespan ok (module_init rows))) = 0.
Proof.
  pose proof (lifespan_aggregation_state ok (module_init rows)) as H.
  injection H as _ Hc. exact Hc.
Qed.

(** No request makes the count negative. *)
Lemma serve_count_nonneg (r : request) (s : Server) :
  0 <= global_update_count s -> 0 <= global_update_count (fst (serve r s)).
Proof.
  intros Hc. destruct r as [|payload env|]; cbn [serve]; unfold bind.
  - exact Hc.
  - rewrite submit_model_update_eq.
    destruct (arithmetic_error _); [cbn; lia|].
    destruct (commit_ok env); cbn; lia.
  - exact Hc.
Qed.

Lemma run_count_nonneg (reqs : list request) (s : Server) :
  0 <= global_update_count s -> 0 <= global_update_count (fst (run reqs s)).
Proof.
  revert s. induction reqs as [|r reqs IH]; intros s Hc; cbn [run].
  - exact Hc.
  - pose proof (serve_count_nonneg r s Hc) as H1.
    destruct (serve r s) as [s1 out]. specialize (IH s1 H1).
    destruct (run reqs s1) as [s2 outs]. exact IH.
Qed.

(** With a count that is not negative the clamp is not seen. *)
Lemma clamp_unseen (payload : ModelUpdatePayload) (env : Env) (s : Server) :
  0 <= global_update_count s ->
  submit_model_update payload env s
  = submit_model_update_without_clamp payload env s.
Proof.
  intros Hc.
  rewrite submit_model_update_eq, submit_model_update_without_clamp_eq.
  destruct (arithmetic_error (global_update_count s)) as [e|] eqn:E; [|reflexivity].
  destruct (Z.eq_dec (global_update_count s) 0) as [H0|H0].
  - rewrite H0 in E. vm_compute in E. discriminate.
  - unfold clamped. rewrite Z.max_r by lia. destruct s; reflexivity.
Qed.

End UpdateCount.

(** C8.  [global_update_count] is 0 when the module has been loaded and
    still 0 when startup is over, and an update that is accepted (the
    handler returns its response) leaves the count one higher than it
    found it.  Below [2^53 - 1] updates every request whose row the
    store takes is accepted. *)
Theorem update_count_incremented_by_one :
  (forall rows, global_update_count (module_init rows) = 0) /\
  (forall ok rows, global_update_count (fst (lifespan ok (module_init rows))) = 0) /\
  (forall payload env s s' body,
      submit_model_update payload env s = (s', Ok body) ->
      global_update_count s' = global_update_count s + 1) /\
  (forall payload env s,
      0 <= global_update_count s < 2 ^ 53 - 1 ->
      commit_ok env = true ->
      exists s' body,
        submit_model_update payload env s = (s', Ok body) /\
        global_update_count s' = global_update_count s + 1).
Proof.
  split; [reflexivity|]. split; [exact started_at_zero|]. split.
  - intros payload env s s' body H.
    rewrite submit_model_update_eq in H.
    destruct (arithmetic_error _); [discriminate|].
    destruct (commit_ok env); [|discriminate].
    injection H as <- _. reflexivity.
  - intros payload env s Hc Hok.
    rewrite submit_model_update_eq, (arithmetic_in_range _ Hc), Hok.
    eexists _, _. split; reflexivity.
Qed.

Lemma update_count_incremented_by_one_witness :
  global_update_count (fst (submit_model_update text_only (quiet true) (module_init [])))
  = global_update_count (module_init []) + 1 /\
  exists s' body,
    submit_model_update text_only (quiet true) (module_init []) = (s', Ok body) /\
    global_update_count s' = global_update_count (module_init []) + 1.
Proof.
  split.
  - eapply (proj1 (proj2 (proj2 update_count_incremented_by_one))
              text_only (quiet true)).
    vm_compute. reflexivity.
  - apply (proj2 (proj2 (proj2 update_count_incremented_by_one))
             text_only (quiet true) (module_init [])).
    + vm_compute. split; [discriminate|reflexivity].
    + reflexivity.
Defined.

(** C4.  In a state whose update count is not negative the clamp of
    line 118 changes nothing: the handler and the handler without that
    line end in the same state (weights, count, table, console) with
    the same response or the same exception.  Every state a started
    process reaches by serving requests is such a state. *)
Theorem clamp_is_dead_code :
  (forall payload env s,
      0 <= global_update_count s ->
      submit_model_update payload env s
      = submit_model_update_without_clamp payload env s) /\
  (forall ok rows reqs payload env,
      let s := fst (run reqs (fst (lifespan ok (module_init rows)))) in
      0 <= global_update_count s /\
      submit_model_update payload env s
      = submit_model_update_without_clamp payload env s).
Proof.
  split; [exact clamp_unseen|].
  intros ok rows reqs payload env s.
  assert (Hc : 0 <= global_update_count s).
  { apply run_count_nonneg. rewrite started_at_zero. lia. }
  split; [exact Hc|]. apply clamp_unseen, Hc.
Qed.

Lemma clamp_is_dead_code_witness :
  submit_model_update text_only (quiet true) (module_init [])
  = submit_model_update_without_clamp text_only (quiet true) (module_init []).
Proof. apply (proj1 clamp_is_dead_code). vm_compute. discriminate. Defined.

(** The hypothesis of C4 is needed: at count [-1] the division raises
    after the clamp has run, and the clamp has stored 1. *)
Example clamp_is_seen_below_zero :
  submit_model_update text_only (quiet true) minus_one
  = (clamped minus_one, Raise ZeroDivisionError) /\
  submit_model_update_without_clamp text_only (quiet true) minus_one
  = (minus_one, Raise ZeroDivisionError) /\
  global_update_count (clamped minus_one) = 1.
Proof. repeat split; vm_compute; reflexivity. Qed.

(* ================================================================= *)
(** ** Failure of the store write *)

(** C2, as stated, fails.  From a fresh process, with a store that
    refuses the commit, the request raises and writes no row, yet the
    aggregation state has moved: the count is 1 and the weight of
    ["text"] is the submitted 1.0.  The next request sees it: the same
    update is answered differently after the failed request than
    without it. *)
Lemma refused_commit_keeps_the_update :
  let s := module_init [] in
  let '(s', r) := submit_model_update text_only (quiet false) s in
  commit_ok (quiet false) = false /\
  r = Raise OperationalError /\
  hush_db s' = hush_db s /\
  aggregation_state s = (initial_weights, 0) /\
  aggregation_state s'
  = ({| text := f1_0; typing := f0_0; voice := f0_0 |}, 1) /\
  aggregation_state s' <> aggregation_state s /\
  snd (submit_model_update text_and_voice (quiet true) s')
  <> snd (submit_model_update text_and_voice (quiet true) s).
Proof. vm_compute. repeat split; discriminate. Qed.

(** C2, amended.  When the commit is refused no row is written, and
    (where the arithmetic raises nothing, that is below [2^53 - 1]
    updates) the request raises the exception of the store while the
    aggregation state is not rolled back: the weights are the averaged
    ones and the count is one higher.  When the handler returns its
    response, the commit was taken, exactly the returned row has been
    appended to the table, and the aggregation state has advanced in
    the same way.  Nothing is said of a request that fails after the
    commit. *)
Theorem refused_commit_is_not_rolled_back
  (payload : ModelUpdatePayload) (env : Env) (s : Server) :
  (commit_ok env = false ->
   hush_db (fst (submit_model_update payload env s)) = hush_db s /\
   (0 <= global_update_count s < 2 ^ 53 - 1 ->
    snd (submit_model_update payload env s) = Raise OperationalError /\
    aggregation_state (fst (submit_model_update payload env s))
    = (averaged payload env s, global_update_count s + 1))) /\
  (forall s' body,
      submit_model_update payload env s = (s', Ok body) ->
      commit_ok env = true /\
      hush_db s' = (hush_db s ++ [new_data_point body])%list /\
      aggregation_state s' = (averaged payload env s, global_update_count s + 1)).
Proof.
  rewrite submit_model_update_eq. split.
  - intros Hr. rewrite Hr. split.
    + destruct (arithmetic_error _); reflexivity.
    + intros Hc. rewrite (arithmetic_in_range _ Hc). split; reflexivity.
  - intros s' body.
    destruct (arithmetic_error (global_update_count s)); [discriminate|].
    destruct (commit_ok env); [|discriminate].
    intros H. injection H as <- <-. repeat split.
Qed.

Lemma refused_commit_is_not_rolled_back_witness :
  (hush_db (fst (submit_model_update text_only (quiet false) (module_init [])))
   = hush_db (module_init []) /\
   snd (submit_model_update text_only (quiet false) (module_init []))
   = Raise OperationalError /\
   aggregation_state (fst (submit_model_update text_only (quiet false) (module_init [])))
   = (averaged text_only (quiet false) (module_init []),
      global_update_count (module_init []) + 1)) /\
  (commit_ok (quiet true) = true /\
   hush_db (saved text_only (quiet true) (module_init []))
   = (hush_db (module_init []) ++ [snapshot text_only (quiet true) (module_init [])])%list /\
   aggregation_state (saved text_only (quiet true) (module_init []))
   = (averaged text_only (quiet true) (module_init []),
      global_update_count (module_init []) + 1)).
Proof.
  split.
  - destruct (proj1 (refused_commit_is_not_rolled_back text_only (quiet false)
                       (module_init [])) eq_refl) as [T A].
    split; [exact T|]. apply A. vm_compute. split; [discriminate|reflexivity].
  - apply (proj2 (refused_commit_is_not_rolled_back text_only (quiet true)
                    (module_init []))
             (saved text_only (quiet true) (module_init []))
             {| status := "update received and saved";
                new_data_point := snapshot text_only (quiet true) (module_init []) |}).
    vm_compute. reflexivity.
Defined.

(* ================================================================= *)
(** ** What the handler reads of the payload *)

Section Payload.




End Payload.

(** C7.  When the key of a feature is absent from
    [feature_attributions], the value read for it is 0, and the request
    is handled exactly as the same payload with that key set to 0.0:
    same final state, same response. *)
Theorem absent_key_contributes_zero
  (payload : ModelUpdatePayload) (f : Feature) :
  feature_attributions payload !! key f = None ->
  get_attribution payload (key f) = f0_0 /\
  forall env s,
    submit_model_update payload env s
    = submit_model_update
        {| feature_attributions := <[key f := f0_0]> (feature_attributions payload);
           user_id := user_id payload |} env s.
Proof.
  intros Hf. split.
  - unfold get_attribution. rewrite Hf. reflexivity.
  - intros env s. rewrite !submit_model_update_eq.
    set (p' := {| feature_attributions := _; user_id := _ |}).
    assert (H : forall g, noisy payload env g = noisy p' env g).
    { intros g. unfold noisy, get_attribution, p'; cbn [feature_attributions].
      destruct (decide (key f = key g)) as [E|E].
      - rewrite <- E, Hf, lookup_insert_eq. reflexivity.
      - rewrite lookup_insert_ne by exact E. reflexivity. }
    assert (Ha : averaged payload env s = averaged p' env s).
    { unfold averaged. rewrite !H. reflexivity. }
    unfold saved, aggregated, snapshot. rewrite Ha. reflexivity.
Qed.

Lemma absent_key_contributes_zero_witness :
  get_attribution text_only (key Voice) = f0_0 /\
  forall env s,
    submit_model_update text_only env s
    = submit_model_update
        {| feature_attributions := <[key Voice := f0_0]> (feature_attributions text_only);
           user_id := user_id text_only |} env s.
Proof. apply (absent_key_contributes_zero text_only Voice). reflexivity. Defined.



(* ================================================================= *)
(** ** The running average *)

Section RunningAverage.

(** Where the arithmetic raises nothing, the globals after the
    request are the averaged weights and the next count, whether or
    not the store takes the row. *)
Lemma aggregation_state_after (payload : ModelUpdatePayload) (env : Env) (s : Server) :
  arithmetic_error (global_update_count s) = None ->
  aggregation_state (fst (submit_model_update payload env s))
  = (averaged payload env s, global_update_count s + 1).
Proof.
  intros E. rewrite submit_model_update_eq, E.
  destruct (commit_ok env); reflexivity.
Qed.

Lemma weight_averaged (payload : ModelUpdatePayload) (env : Env) (s : Server)
  (f : Feature) :
  weight f (averaged payload env s)
  = incremental_mean (weight f (global_model_weights s))
      (global_update_count s + 1) (noisy payload env f).
Proof. destruct f; reflexivity. Qed.

(** The first update of a process: the initial weight is multiplied
    by [0.0] and so drops out. *)
Lemma first_mean (f : Feature) (x : float) :
  is_float x = true ->
  incremental_mean (weight f initial_weights) 1 (plus_zero x) = plus_zero x.
Proof.
  intros Hx. unfold incremental_mean.
  change (Z2F (1 - 1)) with f0_0. change (Z2F 1) with f1_0.
  replace (fmul (weight f initial_weights) f0_0) with f0_0
    by (destruct f; reflexivity).
  rewrite fadd_0_plus_zero. apply fdiv_1_r, is_float_plus_zero, Hx.
Qed.

(** The second update: old average times [1.0], plus the new value,
    over [2.0]. *)
Lemma second_mean (x y : float) :
  is_float x = true ->
  incremental_mean x 2 y = fdiv (fadd x y) f2_0.
Proof.
  intros Hx. unfold incremental_mean.
  change (Z2F (2 - 1)) with f1_0. change (Z2F 2) with f2_0.
  rewrite fmul_1_r by exact Hx. reflexivity.
Qed.

Lemma same_number_half_sum (a b : float) :
  same_number (fdiv (fadd (plus_zero a) (plus_zero b)) f2_0)
              (fdiv (fadd a b) f2_0).
Proof.
  unfold same_number.
  rewrite <- fdiv_plus_zero, fadd_plus_zero, fdiv_plus_zero. reflexivity.
Qed.

Variables (f : Feature) (a b : float) (p1 p2 : ModelUpdatePayload) (e1 e2 : Env).
Hypothesis float_a : is_float a = true.
Hypothesis first_a : feature_attributions p1 !! key f = Some a.
Hypothesis second_b : feature_attributions p2 !! key f = Some b.
Hypothesis quiet_1 : laplace f e1 = f0_0.
Hypothesis quiet_2 : laplace f e2 = f0_0.

(** Two noiseless updates [a] then [b] on a fresh process. *)
Lemma two_updates (s0 : Server) :
  aggregation_state s0 = (initial_weights, 0) ->
  let s1 := fst (submit_model_update p1 e1 s0) in
  let s2 := fst (submit_model_update p2 e2 s1) in
  weight f (global_model_weights s1) = plus_zero a /\
  weight f (global_model_weights s2)
  = fdiv (fadd (plus_zero a) (plus_zero b)) f2_0.
Proof.
  intros H0 s1 s2.
  injection H0 as Hw0 Hc0.
  assert (N1 : noisy p1 e1 f = plus_zero a).
  { unfold noisy, get_attribution. rewrite first_a, quiet_1. apply fadd_0_r. }
  assert (N2 : noisy p2 e2 f = plus_zero b).
  { unfold noisy, get_attribution. rewrite second_b, quiet_2. apply fadd_0_r. }
  assert (A1 : aggregation_state s1 = (averaged p1 e1 s0, 1)).
  { unfold s1. rewrite aggregation_state_after; rewrite Hc0; reflexivity. }
  injection A1 as Hw1 Hc1.
  assert (W1 : weight f (global_model_weights s1) = plus_zero a).
  { rewrite Hw1, weight_averaged, Hw0, Hc0, N1. now apply first_mean. }
  split; [exact W1|].
  assert (A2 : aggregation_state s2 = (averaged p2 e2 s1, 2)).
  { unfold s2. rewrite aggregation_state_after; rewrite Hc1; reflexivity. }
  injection A2 as Hw2 _.
  rewrite Hw2, weight_averaged, W1, Hc1, N2.
  apply second_mean, is_float_plus_zero, float_a.
Qed.

End RunningAverage.

(** C1.  An accepted update leaves, for every feature, the average
    [(old_average * (n - 1) + noisy_value) / n] with [n] the prior
    count plus one, and the returned snapshot carries it; below
    [2^53 - 1] updates the globals hold this average after every
    request, accepted or refused by the store.  Hence with
    the noise at 0, on a freshly started process, a first update
    contributing [a] leaves the number [a] (the initial weight has
    dropped out) and a second one contributing [b] leaves the number
    [(a + b) / 2]. *)
Theorem running_average_is_incremental_mean :
  (forall payload env s s' body f,
      submit_model_update payload env s = (s', Ok body) ->
      weight f (global_model_weights s')
      = incremental_mean (weight f (global_model_weights s))
          (global_update_count s + 1)
          (fadd (get_attribution payload (key f)) (laplace f env)) /\
      importance f (new_data_point body) = weight f (global_model_weights s')) /\
  (forall payload env s f,
      0 <= global_update_count s < 2 ^ 53 - 1 ->
      weight f (global_model_weights (fst (submit_model_update payload env s)))
      = incremental_mean (weight f (global_model_weights s))
          (global_update_count s + 1)
          (fadd (get_attribution payload (key f)) (laplace f env))) /\
  (forall f a b p1 p2 e1 e2 ok rows,
      is_float a = true ->
      feature_attributions p1 !! key f = Some a ->
      feature_attributions p2 !! key f = Some b ->
      laplace f e1 = f0_0 -> laplace f e2 = f0_0 ->
      let s0 := fst (lifespan ok (module_init rows)) in
      let s1 := fst (submit_model_update p1 e1 s0) in
      let s2 := fst (submit_model_update p2 e2 s1) in
      same_number (weight f (global_model_weights s1)) a /\
      same_number (weight f (global_model_weights s2)) (fdiv (fadd a b) f2_0)).
Proof.
  split.
  - intros payload env s s' body f H.
    rewrite submit_model_update_eq in H.
    destruct (arithmetic_error _); [discriminate|].
    destruct (commit_ok env); [|discriminate].
    injection H as <- <-.
    cbn [global_model_weights saved new_data_point].
    rewrite weight_averaged. split; [reflexivity|].
    destruct f; reflexivity.
  - split.
    { intros payload env s f Hc.
      pose proof (aggregation_state_after payload env s (arithmetic_in_range _ Hc)) as H.
      injection H as -> _. apply weight_averaged. }
    intros f a b p1 p2 e1 e2 ok rows Ha H1 H2 Q1 Q2 s0 s1 s2.
    destruct (two_updates f a b p1 p2 e1 e2 Ha H1 H2 Q1 Q2 s0) as [W1 W2].
    { unfold s0. rewrite lifespan_aggregation_state. reflexivity. }
    fold s1 in W1. fold s1 s2 in W2. rewrite W1, W2. split.
    + apply plus_zero_idem.
    + apply same_number_half_sum.
Qed.

Lemma running_average_is_incremental_mean_witness :
  (weight Text (global_model_weights (saved text_only (quiet true) (module_init [])))
   = incremental_mean (weight Text (global_model_weights (module_init [])))
       (global_update_count (module_init []) + 1)
       (fadd (get_attribution text_only (key Text)) (laplace Text (quiet true))) /\
   importance Text (snapshot text_only (quiet true) (module_init []))
   = weight Text (global_model_weights (saved text_only (quiet true) (module_init [])))) /\
  weight Voice
    (global_model_weights
       (fst (submit_model_update text_and_voice (quiet false) (module_init []))))
  = incremental_mean (weight Voice (global_model_weights (module_init [])))
      (global_update_count (module_init []) + 1)
      (fadd (get_attribution text_and_voice (key Voice)) (laplace Voice (quiet false))) /\
  (let s0 := fst (lifespan true (module_init [])) in
   let s1 := fst (submit_model_update text_and_voice (quiet true) s0) in
   let s2 := fst (submit_model_update text_only (quiet true) s1) in
   same_number (weight Text (global_model_weights s1)) f0_4 /\
   same_number (weight Text (global_model_weights s2)) (fdiv (fadd f0_4 f1_0) f2_0)).
Proof.
  split.
  - apply (proj1 running_average_is_incremental_mean text_only (quiet true)
             (module_init []) (saved text_only (quiet true) (module_init []))
             {| status := "update received and saved";
                new_data_point := snapshot text_only (quiet true) (module_init []) |}
             Text).
    vm_compute. reflexivity.
  - split.
    { apply (proj1 (proj2 running_average_is_incremental_mean)
               text_and_voice (quiet false) (module_init []) Voice).
      vm_compute. split; [discriminate|reflexivity]. }
    apply (proj2 (proj2 running_average_is_incremental_mean) Text f0_4 f1_0
             text_and_voice text_only (quiet true) (quiet true) true []);
      reflexivity.
Defined.

(** Why C1 speaks of the same number and not of the same float: a first
    update contributing [-0.0] leaves [0.0]. *)
Example first_update_of_minus_zero :
  let p := {| feature_attributions := {[ "text" := S754_zero true ]};
              user_id := "anon-12345" |} in
  text (global_model_weights
          (fst (submit_model_update p (quiet true) (module_init []))))
  = S754_zero false.
Proof. vm_compute. reflexivity. Qed.

(* ================================================================= *)
(** ** Startup *)

(** C5.  Started with [commit] succeeding on an empty table, [lifespan]
    leaves exactly the three seed rows, in this order and with the
    literal timestamps and values; started on a table that holds at
    least one row, it leaves the table as it found it. *)
Theorem lifespan_seeds_iff_empty :
  (forall w c out,
      lifespan true {| global_model_weights := w; global_update_count := c;
                       hush_db := []; console := out |}
      = ({| global_model_weights := w; global_update_count := c;
            hush_db :=
              [ {| id := Some 1; timestamp := "2025-11-01T10:00:00Z";
                   avg_text_importance := decimal 4 1;
                   avg_typing_importance := decimal 4 1;
                   avg_voice_importance := decimal 2 1 |};
                {| id := Some 2; timestamp := "2025-11-01T11:00:00Z";
                   avg_text_importance := decimal 42 2;
                   avg_typing_importance := decimal 38 2;
                   avg_voice_importance := decimal 2 1 |};
                {| id := Some 3; timestamp := "2025-11-01T12:00:00Z";
                   avg_text_importance := decimal 38 2;
                   avg_typing_importance := decimal 45 2;
                   avg_voice_importance := decimal 17 2 |} ];
            console :=
              out ++ ["Server starting up...";
                      "Database is empty, pre-populating with mock data...";
                      "Mock data populated."] |}, Ok tt)) /\
  (forall ok w c out r rows,
      lifespan ok {| global_model_weights := w; global_update_count := c;
                     hush_db := r :: rows; console := out |}
      = ({| global_model_weights := w; global_update_count := c;
            hush_db := r :: rows;
            console := out ++ ["Server starting up..."] |}, Ok tt)).
Proof.
  split.
  - intros w c out.
    cbv [lifespan bind print gets modify session_commit ret].
    cbn [hush_db hd_error console global_model_weights global_update_count].
    rewrite <- !app_assoc. reflexivity.
  - intros ok w c out r rows. reflexivity.
Qed.

(* ================================================================= *)
(** ** The table only grows *)

Section AppendOnly.

Lemma lifespan_prefix (ok : bool) (s : Server) :
  hush_db s `prefix_of` hush_db (fst (lifespan ok s)).
Proof.
  cbv [lifespan bind print gets modify session_commit ret raise].
  cbn [hush_db]. destruct (hush_db s) as [|r rows]; cbn [hd_error].
  - apply prefix_nil.
  - reflexivity.
Qed.

(** One request: the table afterwards is the table before, followed
    by the snapshot when the request was an accepted update. *)
Lemma serve_appends (r : request) (s : Server) :
  exists new,
    hush_db (fst (serve r s)) = (hush_db s ++ new)%list /\
    length new = accepted [snd (serve r s)].
Proof.
  destruct r as [|payload env|]; cbn [serve].
  - exists []. rewrite app_nil_r. split; reflexivity.
  - unfold bind. rewrite submit_model_update_eq.
    destruct (arithmetic_error _).
    { exists []. rewrite app_nil_r. split; reflexivity. }
    destruct (commit_ok env).
    + exists [snapshot payload env s]. split; reflexivity.
    + exists []. rewrite app_nil_r. split; reflexivity.
  - exists []. rewrite app_nil_r. split; reflexivity.
Qed.

Lemma run_appends (reqs : list request) (s : Server) :
  exists new,
    hush_db (fst (run reqs s)) = (hush_db s ++ new)%list /\
    length new = accepted (snd (run reqs s)).
Proof.
  revert s. induction reqs as [|r reqs IH]; intros s; cbn [run].
  - exists []. rewrite app_nil_r. split; reflexivity.
  - destruct (serve_appends r s) as (new1 & E1 & L1).
    destruct (serve r s) as [s1 out] eqn:Es.
    destruct (IH s1) as (new2 & E2 & L2).
    destruct (run reqs s1) as [s2 outs] eqn:Er.
    cbn [fst snd] in *.
    exists (new1 ++ new2)%list. split.
    + rewrite E2, E1, app_assoc. reflexivity.
    + rewrite length_app, L1, L2.
      destruct out as [[]|]; reflexivity.
Qed.

End AppendOnly.

(** C6.  No operation removes or alters a stored row: after startup,
    and after any sequence of requests, the table begins with the rows
    it held before, so its length never goes down.  Counted from a
    first start on an empty table, the table holds 3 rows plus one per
    accepted update. *)
Theorem store_is_append_only :
  (forall ok s, hush_db s `prefix_of` hush_db (fst (lifespan ok s))) /\
  (forall reqs s,
      hush_db s `prefix_of` hush_db (fst (run reqs s)) /\
      (length (hush_db s) <= length (hush_db (fst (run reqs s))))%nat) /\
  (forall reqs,
      let s1 := fst (lifespan true (module_init [])) in
      length (hush_db (fst (run reqs s1)))
      = (3 + accepted (snd (run reqs s1)))%nat).
Proof.
  split; [exact lifespan_prefix|]. split.
  - intros reqs s. destruct (run_appends reqs s) as (new & E & _).
    rewrite E. split; [apply prefix_app_r; reflexivity|].
    rewrite length_app. lia.
  - intros reqs s1. destruct (run_appends reqs s1) as (new & E & L).
    rewrite E, length_app, L. reflexivity.
Qed.

(* ================================================================= *)
(** ** The dashboard query *)

Section Dashboard.

(** Byte-wise comparison of strings is transitive. *)
Lemma string_leb_trans (a b c : string) :
  String.leb a b = true -> String.leb b c = true -> String.leb a c = true.
Proof.
  unfold String.leb.
  destruct (String.compare a b) eqn:Eab; [| |discriminate];
    (destruct (String.compare b c) eqn:Ebc; [| |discriminate]); intros _ _.
  - apply String.compare_eq_iff in Eab. subst. now rewrite Ebc.
  - apply String.compare_eq_iff in Eab. subst. now rewrite Ebc.
  - apply String.compare_eq_iff in Ebc. subst. now rewrite Eab.
  - apply OrderedTypeEx.String_as_OT.cmp_lt in Eab, Ebc.
    pose proof (OrderedTypeEx.String_as_OT.lt_trans _ _ _ Eab Ebc) as Hac.
    apply OrderedTypeEx.String_as_OT.cmp_lt in Hac.
    unfold OrderedTypeEx.String_as_OT.cmp in Hac. now rewrite Hac.
Qed.

Lemma timestamp_leb_trans (x y z : DashboardDataPoint) :
  timestamp_leb x y = true -> timestamp_leb y z = true ->
  timestamp_leb x z = true.
Proof. unfold timestamp_leb. apply string_leb_trans. Qed.

Lemma insert_by_timestamp_perm (r : DashboardDataPoint)
  (rows : list DashboardDataPoint) :
  Permutation (r :: rows) (insert_by_timestamp r rows).
Proof.
  induction rows as [|r' rows IH]; cbn [insert_by_timestamp]; [reflexivity|].
  destruct (timestamp_leb r r'); [reflexivity|].
  rewrite perm_swap. apply perm_skip, IH.
Qed.

Lemma order_by_timestamp_perm (rows : list DashboardDataPoint) :
  Permutation rows (order_by_timestamp rows).
Proof.
  induction rows as [|r rows IH]; [reflexivity|].
  cbn [order_by_timestamp fold_right].
  rewrite <- insert_by_timestamp_perm. apply perm_skip, IH.
Qed.

Lemma insert_by_timestamp_sorted (r : DashboardDataPoint)
  (rows : list DashboardDataPoint) :
  StronglySorted (fun x y => timestamp_leb x y = true) rows ->
  StronglySorted (fun x y => timestamp_leb x y = true)
    (insert_by_timestamp r rows).
Proof.
  induction 1 as [|r' rows S IH F]; cbn [insert_by_timestamp].
  - repeat constructor.
  - destruct (timestamp_leb r r') eqn:E.
    + constructor; [constructor; assumption|].
      constructor; [exact E|].
      eapply List.Forall_impl; [|exact F].
      intros y. apply timestamp_leb_trans, E.
    + constructor; [exact IH|].
      apply (Permutation_Forall (insert_by_timestamp_perm r rows)).
      constructor; [|exact F].
      destruct (String.leb_total (timestamp r) (timestamp r')) as [L|L];
        [unfold timestamp_leb in E; congruence|exact L].
Qed.

Lemma order_by_timestamp_sorted (rows : list DashboardDataPoint) :
  StronglySorted (fun x y => timestamp_leb x y = true) (order_by_timestamp rows).
Proof.
  induction rows as [|r rows IH]; [constructor|].
  cbn [order_by_timestamp fold_right]. apply insert_by_timestamp_sorted, IH.
Qed.

End Dashboard.

(** C9.  The query changes nothing and returns every stored row, each
    as stored and as often as stored, arranged so that the timestamps
    never go down in byte-wise string order.  Nothing is cut off or
    left out: the answer has as many rows as the table.  On an empty
    table the answer is the empty list. *)
Theorem dashboard_returns_all_rows_sorted :
  (forall s,
      exists rows,
        get_dashboard_data s = (s, Ok rows) /\
        Permutation (hush_db s) rows /\
        length rows = length (hush_db s) /\
        StronglySorted
          (fun x y => String.leb (timestamp x) (timestamp y) = true) rows) /\
  (forall w c out,
      snd (get_dashboard_data
             {| global_model_weights := w; global_update_count := c;
                hush_db := []; console := out |}) = Ok []).
Proof.
  split; [|reflexivity].
  intros s. exists (order_by_timestamp (hush_db s)).
  pose proof (order_by_timestamp_perm (hush_db s)) as P.
  split; [reflexivity|]. split; [exact P|]. split.
  - symmetry. apply Permutation_length, P.
  - apply order_by_timestamp_sorted.
Qed.

(* ================================================================= *)
(** ** Timestamps and insertion order *)

(** C3, evaluated.  A first start on an empty table writes the seed
    rows 1, 2, 3; an update handled when the clock reads half a second
    past noon of 2025-11-01 is stored as row 4.  Its timestamp has no
    [Z] and has a fraction, and it is smaller, as a string, than the
    timestamp of row 3: the query returns row 4 before row 3.  When the
    clock of the server reads 03:00:00 that day (local time, as
    [datetime.now()] gives it) row 4 comes before all three seed
    rows. *)
Lemma last_row_sorts_before_seed :
  let s1 := fst (lifespan true (module_init [])) in
  let s2 := fst (submit_model_update text_only (quiet true) s1) in
  let early :=
    {| laplace_text := f0_0; laplace_typing := f0_0; laplace_voice := f0_0;
       now := three_in_the_morning; commit_ok := true |} in
  let s3 := fst (submit_model_update text_only early s1) in
  map id (hush_db s2) = [Some 1; Some 2; Some 3; Some 4] /\
  map timestamp (hush_db s2)
  = ["2025-11-01T10:00:00Z"; "2025-11-01T11:00:00Z"; "2025-11-01T12:00:00Z";
     "2025-11-01T12:00:00.500000"] /\
  String.ltb "2025-11-01T12:00:00.500000" "2025-11-01T12:00:00Z" = true /\
  (exists rows,
      snd (get_dashboard_data s2) = Ok rows /\
      map id rows = [Some 1; Some 2; Some 4; Some 3]) /\
  map timestamp (hush_db s3)
  = ["2025-11-01T10:00:00Z"; "2025-11-01T11:00:00Z"; "2025-11-01T12:00:00Z";
     "2025-11-01T03:00:00"] /\
  (exists rows,
      snd (get_dashboard_data s3) = Ok rows /\
      map id rows = [Some 4; Some 1; Some 2; Some 3]).
Proof.
  repeat split; try (vm_compute; reflexivity).
  - eexists. split; vm_compute; reflexivity.
  - eexists. split; vm_compute; reflexivity.
Qed.

(* ================================================================= *)
(** * Further properties *)

(* ================================================================= *)
(** ** Requests that read *)

Section Reads.

Lemma serve_reads_only (r : request) (s : Server) :
  reads_only r = true -> fst (serve r s) = s.
Proof. destruct r; [reflexivity|discriminate|reflexivity]. Qed.

End Reads.

(** X1.  [GET /] and [GET /v1/dashboard-data] assign neither global
    and write no row: a run of such requests, however long, ends with
    the weights, the count and the table it started from, and each of
    them is answered as it would be if it were the only request. *)
Theorem reads_keep_globals_and_table (reqs : list request) (s : Server) :
  forallb reads_only reqs = true ->
  global_model_weights (fst (run reqs s)) = global_model_weights s /\
  global_update_count (fst (run reqs s)) = global_update_count s /\
  hush_db (fst (run reqs s)) = hush_db s /\
  snd (run reqs s) = map (fun r => snd (serve r s)) reqs.
Proof.
  intros H.
  assert (E : fst (run reqs s) = s /\
              snd (run reqs s) = map (fun r => snd (serve r s)) reqs).
  { induction reqs as [|r reqs IH]; cbn [forallb run map] in *;
      [split; reflexivity|].
    apply andb_true_iff in H. destruct H as [Hr Hrs].
    pose proof (serve_reads_only r s Hr) as E.
    destruct (serve r s) as [s1 out]. cbn [fst snd] in *. subst s1.
    destruct (IH Hrs) as [E1 E2].
    destruct (run reqs s) as [s2 outs]. cbn [fst snd] in *.
    split; [exact E1|]. rewrite E2. reflexivity. }
  destruct E as [-> E]. repeat split. exact E.
Qed.

Lemma reads_keep_globals_and_table_witness :
  let reqs := [GET_root; GET_dashboard_data; GET_root] in
  let s := fst (lifespan true (module_init [])) in
  global_model_weights (fst (run reqs s)) = global_model_weights s /\
  global_update_count (fst (run reqs s)) = global_update_count s /\
  hush_db (fst (run reqs s)) = hush_db s /\
  snd (run reqs s) = map (fun r => snd (serve r s)) reqs.
Proof.
  apply (reads_keep_globals_and_table [GET_root; GET_dashboard_data; GET_root]).
  reflexivity.
Defined.

(* ================================================================= *)
(** ** One feature at a time *)

(** X4.  The three running averages do not mix.  The average of a
    feature after a request is fixed by the prior average of that
    feature, the prior count, the value the payload holds at that key
    and the noise drawn for it: the other two features, the table, the
    clock and the outcome of the commit have no part in it. *)
Theorem features_are_independent
  (f : Feature) (p1 p2 : ModelUpdatePayload) (e1 e2 : Env) (s1 s2 : Server) :
  feature_attributions p1 !! key f = feature_attributions p2 !! key f ->
  laplace f e1 = laplace f e2 ->
  weight f (global_model_weights s1) = weight f (global_model_weights s2) ->
  global_update_count s1 = global_update_count s2 ->
  weight f (global_model_weights (fst (submit_model_update p1 e1 s1)))
  = weight f (global_model_weights (fst (submit_model_update p2 e2 s2))).
Proof.
  intros Hp He Hw Hc. rewrite !submit_model_update_eq, <- Hc.
  assert (Hn : noisy p1 e1 f = noisy p2 e2 f).
  { unfold noisy, get_attribution. rewrite Hp, He. reflexivity. }
  assert (Ha : weight f (averaged p1 e1 s1) = weight f (averaged p2 e2 s2)).
  { rewrite !weight_averaged, Hw, Hc, Hn. reflexivity. }
  destruct (arithmetic_error (global_update_count s1)); [exact Hw|].
  destruct (commit_ok e1), (commit_ok e2); exact Ha.
Qed.

Lemma features_are_independent_witness :
  weight Text
    (global_model_weights
       (fst (submit_model_update text_only (quiet true) (module_init []))))
  = weight Text
      (global_model_weights
         (fst (submit_model_update text_and_more (quiet false)
                 (fst (lifespan true (module_init [])))))).
Proof.
  apply (features_are_independent Text text_only text_and_more
           (quiet true) (quiet false)); reflexivity.
Defined.

(* ================================================================= *)
(** ** Restart *)

(** X5.  The accumulator is not restored from the table.  Whatever
    rows [hush.db] holds when the process starts, the first request of
    the process leaves the averages and the count it would leave over
    an empty table: the hard-coded initial weights at count 0 are
    folded with the payload, and the stored history has no part. *)
Theorem restart_forgets_the_history :
  forall rows ok payload env,
    aggregation_state
      (fst (submit_model_update payload env (fst (lifespan ok (module_init rows)))))
    = (averaged payload env (module_init []), 1) /\
    aggregation_state (fst (lifespan ok (module_init rows))) = (initial_weights, 0).
Proof.
  intros rows ok payload env.
  pose proof (lifespan_aggregation_state ok (module_init rows)) as H0.
  split; [|exact H0].
  set (s0 := fst (lifespan ok (module_init rows))) in *.
  injection H0 as Hw Hc.
  rewrite aggregation_state_after by (rewrite Hc; reflexivity).
  unfold averaged. rewrite Hw, Hc. reflexivity.
Qed.

(* ================================================================= *)
(** ** Not-a-number *)

Section NaN.

Lemma incremental_mean_nan_old (n : Z) (x : float) :
  incremental_mean S754_nan n x = S754_nan.
Proof. reflexivity. Qed.

Lemma incremental_mean_nan_new (old : float) (n : Z) :
  incremental_mean old n S754_nan = S754_nan.
Proof.
  unfold incremental_mean.
  replace (fadd (fmul old (Z2F (n - 1))) S754_nan) with S754_nan
    by (destruct (fmul old (Z2F (n - 1))); reflexivity).
  reflexivity.
Qed.

Lemma noisy_nan (payload : ModelUpdatePayload) (env : Env) (f : Feature) :
  feature_attributions payload !! key f = @Some float S754_nan ->
  noisy payload env f = S754_nan.
Proof.
  intros H. unfold noisy, get_attribution. rewrite H. reflexivity.
Qed.

Lemma submit_keeps_nan (payload : ModelUpdatePayload) (env : Env) (s : Server)
  (f : Feature) :
  weight f (global_model_weights s) = S754_nan ->
  weight f (global_model_weights (fst (submit_model_update payload env s)))
  = S754_nan.
Proof.
  intros H. rewrite submit_model_update_eq.
  assert (Ha : weight f (averaged payload env s) = S754_nan).
  { rewrite weight_averaged, H. apply incremental_mean_nan_old. }
  destruct (arithmetic_error _); [exact H|].
  destruct (commit_ok env); exact Ha.
Qed.

Lemma run_keeps_nan (reqs : list request) (s : Server) (f : Feature) :
  weight f (global_model_weights s) = S754_nan ->
  weight f (global_model_weights (fst (run reqs s))) = S754_nan.
Proof.
  revert s. induction reqs as [|r reqs IH]; intros s H; cbn [run]; [exact H|].
  assert (H1 : weight f (global_model_weights (fst (serve r s))) = S754_nan).
  { destruct r as [|payload env|]; cbn [serve]; unfold bind.
    - exact H.
    - pose proof (submit_keeps_nan payload env s f H) as K.
      destruct (submit_model_update payload env s) as [s1 [b|e]]; exact K.
    - exact H. }
  destruct (serve r s) as [s1 out]. cbn [fst] in H1.
  specialize (IH s1 H1). destruct (run reqs s1) as [s2 outs]. exact IH.
Qed.

End NaN.

(** X6.  The handler checks no value.  A payload that holds NaN at the
    key of a feature turns the average of that feature into NaN (below
    [2^53 - 1] updates, where the arithmetic raises nothing), and an
    average that is NaN stays NaN through every later request: no
    update brings it back. *)
Theorem nan_is_absorbing :
  (forall payload env s f,
      0 <= global_update_count s < 2 ^ 53 - 1 ->
      feature_attributions payload !! key f = @Some float S754_nan ->
      weight f (global_model_weights (fst (submit_model_update payload env s)))
      = S754_nan) /\
  (forall reqs s f,
      weight f (global_model_weights s) = S754_nan ->
      weight f (global_model_weights (fst (run reqs s))) = S754_nan).
Proof.
  split; [|exact run_keeps_nan].
  intros payload env s f Hc Hp.
  pose proof (aggregation_state_after payload env s (arithmetic_in_range _ Hc)) as H.
  injection H as -> _.
  rewrite weight_averaged, (noisy_nan payload env f Hp).
  apply incremental_mean_nan_new.
Qed.

Lemma nan_is_absorbing_witness :
  let s1 := fst (submit_model_update text_nan (quiet true) (module_init [])) in
  weight Text (global_model_weights s1) = S754_nan /\
  weight Text
    (global_model_weights
       (fst (run [POST_submit_update text_only (quiet true);
                  POST_submit_update text_and_voice (quiet true)] s1)))
  = S754_nan.
Proof.
  assert (H : weight Text
                (global_model_weights
                   (fst (submit_model_update text_nan (quiet true) (module_init []))))
              = S754_nan).
  { apply (proj1 nan_is_absorbing text_nan (quiet true) (module_init []) Text).
    - vm_compute. split; [discriminate|reflexivity].
    - reflexivity. }
  split; [exact H|].
  apply (proj2 nan_is_absorbing), H.
Defined.

(* ================================================================= *)
(** ** Primary keys *)

Section Keys.

Lemma max_of_seq (a n : nat) :
  fold_right Z.max 0 (map Z.of_nat (seq a n))
  = match n with O => 0 | S _ => Z.of_nat (a + n - 1) end.
Proof.
  revert a. induction n as [|n IH]; intros a; [reflexivity|].
  cbn [seq map fold_right]. rewrite IH. destruct n; lia.
Qed.

(** In a table with keys 1..n the next key is n + 1. *)
Lemma next_id_dense (rows : list DashboardDataPoint) :
  dense_ids rows -> next_id rows = Z.of_nat (length rows) + 1.
Proof.
  unfold dense_ids, next_id. intros H.
  replace (map (fun r => default 0 (id r)) rows)
    with (map (default 0) (map id rows)) by (rewrite map_map; reflexivity).
  rewrite H, map_map. cbn [default from_option Datatypes.id].
  change (map (fun x : nat => Z.of_nat x)) with (map Z.of_nat).
  rewrite max_of_seq. destruct (length rows); lia.
Qed.

Lemma dense_ids_snoc (rows : list DashboardDataPoint) (r : DashboardDataPoint) :
  dense_ids rows ->
  id r = Some (next_id rows) ->
  dense_ids (rows ++ [r]).
Proof.
  intros H Hr. pose proof (next_id_dense rows H) as Hn.
  unfold dense_ids in *.
  rewrite map_app, length_app, H. cbn [map length].
  rewrite Nat.add_1_r, seq_S, map_app. cbn [map].
  rewrite Hr, Hn. do 3 f_equal. lia.
Qed.

Lemma lifespan_dense (ok : bool) (s : Server) :
  dense_ids (hush_db s) -> dense_ids (hush_db (fst (lifespan ok s))).
Proof.
  cbv [lifespan bind print gets modify session_commit ret raise].
  cbn [hush_db]. destruct (hush_db s) as [|r rows]; cbn [hd_error].
  - intros _. destruct ok; reflexivity.
  - intros H. exact H.
Qed.

Lemma serve_dense (r : request) (s : Server) :
  dense_ids (hush_db s) -> dense_ids (hush_db (fst (serve r s))).
Proof.
  intros H. destruct r as [|payload env|]; cbn [serve]; unfold bind.
  - exact H.
  - rewrite submit_model_update_eq.
    destruct (arithmetic_error _); [exact H|].
    destruct (commit_ok env); [|exact H].
    cbn [fst saved hush_db]. apply dense_ids_snoc; [exact H|reflexivity].
  - exact H.
Qed.

Lemma run_dense (reqs : list request) (s : Server) :
  dense_ids (hush_db s) -> dense_ids (hush_db (fst (run reqs s))).
Proof.
  revert s. induction reqs as [|r reqs IH]; intros s H; cbn [run]; [exact H|].
  pose proof (serve_dense r s H) as H1.
  destruct (serve r s) as [s1 out]. specialize (IH s1 H1).
  destruct (run reqs s1) as [s2 outs]. exact IH.
Qed.

End Keys.

(** X7.  On a table that was created by this program the primary keys
    are 1, 2, ..., n in insertion order, after every startup and every
    request: no key is handed out twice, and an accepted update is
    answered with a row whose [id] is the number of rows the table then
    holds. *)
Theorem ids_count_the_rows :
  (forall ok reqs,
      dense_ids (hush_db (fst (run reqs (fst (lifespan ok (module_init []))))))) /\
  (forall ok s reqs,
      dense_ids (hush_db s) ->
      dense_ids (hush_db (fst (lifespan ok s))) /\
      dense_ids (hush_db (fst (run reqs s))) /\
      List.NoDup (map id (hush_db (fst (run reqs s))))) /\
  (forall payload env s s' body,
      dense_ids (hush_db s) ->
      submit_model_update payload env s = (s', Ok body) ->
      id (new_data_point body) = Some (Z.of_nat (length (hush_db s')))).
Proof.
  split; [|split].
  - intros ok reqs. apply run_dense, lifespan_dense. reflexivity.
  - intros ok s reqs H. split; [apply lifespan_dense, H|].
    pose proof (run_dense reqs s H) as D. split; [exact D|].
    rewrite D. apply Finite.Injective_map_NoDup; [|apply seq_NoDup].
    intros i j E. injection E as E. lia.
  - intros payload env s s' body H E.
    rewrite submit_model_update_eq in E.
    destruct (arithmetic_error _); [discriminate|].
    destruct (commit_ok env); [|discriminate].
    injection E as <- <-.
    cbn [new_data_point snapshot id saved hush_db].
    rewrite (next_id_dense _ H), length_app. cbn [length]. f_equal. lia.
Qed.

Lemma ids_count_the_rows_witness :
  let s := fst (lifespan true (module_init [])) in
  (dense_ids (hush_db (fst (lifespan true s))) /\
   dense_ids (hush_db (fst (run [POST_submit_update text_only (quiet true)] s))) /\
   List.NoDup (map id (hush_db (fst (run [POST_submit_update text_only (quiet true)] s))))) /\
  id (snapshot text_only (quiet true) s)
  = Some (Z.of_nat (length (hush_db (saved text_only (quiet true) s)))).
Proof.
  split.
  - apply (proj1 (proj2 ids_count_the_rows)). reflexivity.
  - apply (proj2 (proj2 ids_count_the_rows) text_only (quiet true)
             (fst (lifespan true (module_init [])))
             (saved text_only (quiet true) (fst (lifespan true (module_init []))))
             {| status := "update received and saved";
                new_data_point :=
                  snapshot text_only (quiet true)
                    (fst (lifespan true (module_init []))) |}).
    + reflexivity.
    + vm_compute. reflexivity.
Defined.

(* ================================================================= *)
(** ** From the update to the dashboard *)

(** X8.  What an accepted update returns is what the dashboard then
    shows: the returned row is the last row of the table, it carries
    the clock reading of the request in [isoformat], and the next
    [GET /v1/dashboard-data] lists it among the rows that were there
    before, one row more than a query before the update listed. *)
Theorem accepted_update_is_on_the_dashboard
  (payload : ModelUpdatePayload) (env : Env) (s s' : Server) (body : SubmitResponse) :
  submit_model_update payload env s = (s', Ok body) ->
  status body = "update received and saved" /\
  timestamp (new_data_point body) = isoformat (now env) /\
  last (hush_db s') = Some (new_data_point body) /\
  exists before after,
    snd (get_dashboard_data s) = Ok before /\
    snd (get_dashboard_data s') = Ok after /\
    In (new_data_point body) after /\
    Permutation (new_data_point body :: before) after.
Proof.
  intros E. rewrite submit_model_update_eq in E.
  destruct (arithmetic_error _); [discriminate|].
  destruct (commit_ok env); [|discriminate].
  injection E as <- <-. cbn [status new_data_point saved hush_db].
  split; [reflexivity|]. split; [reflexivity|].
  split; [apply last_snoc|].
  exists (order_by_timestamp (hush_db s)).
  exists (order_by_timestamp (hush_db s ++ [snapshot payload env s])).
  split; [reflexivity|]. split; [reflexivity|].
  pose proof (order_by_timestamp_perm (hush_db s)) as P1.
  pose proof (order_by_timestamp_perm (hush_db s ++ [snapshot payload env s])) as P2.
  split.
  - apply (Permutation_in _ P2), in_or_app. right. left. reflexivity.
  - rewrite <- P2, <- P1. apply Permutation_cons_append.
Qed.

Lemma accepted_update_is_on_the_dashboard_witness :
  let s := fst (lifespan true (module_init [])) in
  let body := {| status := "update received and saved";
                 new_data_point := snapshot text_only (quiet true) s |} in
  let s' := saved text_only (quiet true) s in
  status body = "update received and saved" /\
  timestamp (new_data_point body) = isoformat (now (quiet true)) /\
  last (hush_db s') = Some (new_data_point body) /\
  exists before after,
    snd (get_dashboard_data s) = Ok before /\
    snd (get_dashboard_data s') = Ok after /\
    In (new_data_point body) after /\
    Permutation (new_data_point body :: before) after.
Proof.
  apply (accepted_update_is_on_the_dashboard text_only (quiet true)
           (fst (lifespan true (module_init [])))).
  vm_compute. reflexivity.
Defined.

(* ================================================================= *)
(** ** Timestamps of the update rows *)

Section Isoformat.

Lemma ascii_compare_refl (c : ascii) : Ascii.compare c c = Eq.
Proof. unfold Ascii.compare. apply N.compare_refl. Qed.

Lemma string_compare_refl (s : string) : String.compare s s = Eq.
Proof.
  induction s as [|c s IH]; [reflexivity|].
  simpl. rewrite ascii_compare_refl. exact IH.
Qed.

(** A common prefix does not count. *)
Lemma compare_app_eq (p s1 s2 : string) :
  String.compare (p ++ s1) (p ++ s2) = String.compare s1 s2.
Proof.
  induction p as [|c p IH]; [reflexivity|].
  simpl. rewrite ascii_compare_refl. exact IH.
Qed.

(** Prefixes of one length decide when they differ. *)
Lemma compare_app_lt (p1 p2 s1 s2 : string) :
  String.length p1 = String.length p2 ->
  String.compare p1 p2 = Lt ->
  String.compare (p1 ++ s1) (p2 ++ s2) = Lt.
Proof.
  revert p2. induction p1 as [|c1 p1 IH]; intros [|c2 p2]; cbn [String.length].
  - discriminate.
  - discriminate.
  - discriminate.
  - intros L. injection L as L. simpl.
    destruct (Ascii.compare c1 c2); [apply IH, L|reflexivity|discriminate].
Qed.

Lemma digit_compare (a b : N) :
  (a < b)%N -> (b < 10)%N ->
  Ascii.compare (ascii_of_N (48 + a)) (ascii_of_N (48 + b)) = Lt.
Proof.
  intros Hab Hb. unfold Ascii.compare.
  rewrite !N_ascii_embedding by lia. apply N.compare_lt_iff. lia.
Qed.

Lemma string_length_append (s1 s2 : string) :
  String.length (s1 ++ s2) = (String.length s1 + String.length s2)%nat.
Proof. induction s1 as [|c s1 IH]; simpl; [reflexivity|]. now rewrite IH. Qed.

Lemma zero_padded_length (w : nat) (n : N) : String.length (zero_padded w n) = w.
Proof.
  revert n. induction w as [|w IH]; intros n; cbn [zero_padded]; [reflexivity|].
  rewrite string_length_append, IH. simpl. lia.
Qed.

(** [%0wd] keeps the order of the numbers below [10^w]. *)
Lemma zero_padded_lt (w : nat) (n1 n2 : N) :
  (n1 < n2)%N -> (n2 < 10 ^ N.of_nat w)%N ->
  String.compare (zero_padded w n1) (zero_padded w n2) = Lt.
Proof.
  revert n1 n2. induction w as [|w IH]; intros n1 n2 H12 H2.
  - cbn in H2. lia.
  - cbn [zero_padded].
    assert (Hp : (10 ^ N.of_nat (S w) = 10 * 10 ^ N.of_nat w)%N).
    { rewrite Nat2N.inj_succ, N.pow_succ_r'. reflexivity. }
    rewrite Hp in H2.
    pose proof (N.div_mod' n1 10) as D1. pose proof (N.div_mod' n2 10) as D2.
    pose proof (N.mod_lt n1 10 ltac:(lia)) as M1.
    pose proof (N.mod_lt n2 10 ltac:(lia)) as M2.
    generalize dependent (10 ^ N.of_nat w)%N. intros P IH H2 _.
    generalize dependent (n1 mod 10)%N. generalize dependent (n2 mod 10)%N.
    generalize dependent (n1 / 10)%N. generalize dependent (n2 / 10)%N.
    intros q2 q1 r2 D2 M2 r1 D1 M1.
    destruct (N.lt_trichotomy q1 q2) as [Hq|[Hq|Hq]].
    + apply compare_app_lt; [rewrite !zero_padded_length; reflexivity|].
      apply IH; [exact Hq|]. lia.
    + rewrite Hq, compare_app_eq. simpl.
      rewrite digit_compare; [reflexivity| |exact M2]. lia.
    + lia.
Qed.

(** One field of the format: it decides, or it is equal and the rest
    decides. *)
Lemma field_step (w : nat) (a1 a2 : N) (r1 r2 : string) :
  (a2 < 10 ^ N.of_nat w)%N ->
  (a1 < a2)%N \/ a1 = a2 /\ String.compare r1 r2 = Lt ->
  String.compare (zero_padded w a1 ++ r1) (zero_padded w a2 ++ r2) = Lt.
Proof.
  intros H2 [H|[-> H]].
  - apply compare_app_lt; [rewrite !zero_padded_length; reflexivity|].
    now apply zero_padded_lt.
  - rewrite compare_app_eq. exact H.
Qed.

(** The fraction: absent at microsecond 0, and then the shorter string
    comes first. *)
Lemma fraction_lt (u1 u2 : N) :
  (u1 < u2)%N -> (u2 < 1000000)%N ->
  String.compare
    (if (u1 =? 0)%N then EmptyString else "." ++ zero_padded 6 u1)
    (if (u2 =? 0)%N then EmptyString else "." ++ zero_padded 6 u2) = Lt.
Proof.
  intros H12 H2.
  destruct (N.eqb_spec u2 0) as [E2|E2]; [lia|].
  destruct (N.eqb_spec u1 0) as [E1|E1]; [reflexivity|].
  rewrite compare_app_eq. apply zero_padded_lt; [exact H12|exact H2].
Qed.

Ltac next_field :=
  apply field_step;
  [ cbn; lia
  | match goal with
    | H : _ \/ _ |- _ =>
        destruct H as [H|[? H]]; [left; exact H|right; split; [assumption|]]
    end ];
  try rewrite compare_app_eq.

Lemma isoformat_lt (d1 d2 : datetime) :
  valid_datetime d2 -> earlier d1 d2 ->
  String.compare (isoformat d1) (isoformat d2) = Lt.
Proof.
  intros (Hy & Hm & Hd & Hh & Hmi & Hs & Hu) E.
  unfold earlier in E. unfold isoformat.
  do 6 next_field.
  apply fraction_lt; [exact E|exact Hu].
Qed.

Lemma earlier_trichotomy (d1 d2 : datetime) :
  earlier d1 d2 \/ d1 = d2 \/ earlier d2 d1.
Proof.
  destruct d1 as [y1 m1 a1 h1 i1 s1 u1], d2 as [y2 m2 a2 h2 i2 s2 u2].
  unfold earlier. cbn [year month day hour minute second microsecond].
  destruct (N.lt_trichotomy y1 y2) as [H|[->|H]]; [lia| |lia].
  destruct (N.lt_trichotomy m1 m2) as [H|[->|H]]; [lia| |lia].
  destruct (N.lt_trichotomy a1 a2) as [H|[->|H]]; [lia| |lia].
  destruct (N.lt_trichotomy h1 h2) as [H|[->|H]]; [lia| |lia].
  destruct (N.lt_trichotomy i1 i2) as [H|[->|H]]; [lia| |lia].
  destruct (N.lt_trichotomy s1 s2) as [H|[->|H]]; [lia| |lia].
  destruct (N.lt_trichotomy u1 u2) as [H|[->|H]]; [lia| |lia].
  right. left. reflexivity.
Qed.

(** On datetimes string order of the [isoformat] is the order of the
    clock. *)
Lemma isoformat_ltb (d1 d2 : datetime) :
  valid_datetime d1 -> valid_datetime d2 ->
  String.ltb (isoformat d1) (isoformat d2) = true <-> earlier d1 d2.
Proof.
  intros V1 V2. unfold String.ltb. split.
  - intros H. destruct (earlier_trichotomy d1 d2) as [E|[E|E]]; [exact E| |].
    + subst d2. rewrite string_compare_refl in H. discriminate.
    + rewrite String.compare_antisym, (isoformat_lt d2 d1 V1 E) in H.
      discriminate.
  - intros E. rewrite (isoformat_lt d1 d2 V2 E). reflexivity.
Qed.

End Isoformat.

(** X11.  Among the rows written by the update handler, byte-wise order
    of the stored timestamps is the order of the clock readings: for
    two accepted updates the timestamp of the first is smaller as a
    string exactly when its [datetime.now()] was the earlier one, so
    the dashboard lists such rows in the order of the clock (zero
    microseconds, where the fraction is left out, included). *)
Theorem update_timestamps_follow_the_clock
  (p1 p2 : ModelUpdatePayload) (e1 e2 : Env) (s1 s2 s1' s2' : Server)
  (b1 b2 : SubmitResponse) :
  valid_datetime (now e1) -> valid_datetime (now e2) ->
  submit_model_update p1 e1 s1 = (s1', Ok b1) ->
  submit_model_update p2 e2 s2 = (s2', Ok b2) ->
  (String.ltb (timestamp (new_data_point b1)) (timestamp (new_data_point b2)) = true
   <-> earlier (now e1) (now e2)) /\
  (timestamp (new_data_point b1) = timestamp (new_data_point b2)
   <-> now e1 = now e2).
Proof.
  intros V1 V2 E1 E2.
  rewrite submit_model_update_eq in E1, E2.
  destruct (arithmetic_error (global_update_count s1)); [discriminate|].
  destruct (arithmetic_error (global_update_count s2)); [discriminate|].
  destruct (commit_ok e1); [|discriminate].
  destruct (commit_ok e2); [|discriminate].
  injection E1 as _ <-. injection E2 as _ <-.
  cbn [new_data_point snapshot timestamp].
  split; [apply isoformat_ltb; assumption|]. split.
  - intros H. destruct (earlier_trichotomy (now e1) (now e2)) as [E|[E|E]].
    + pose proof (isoformat_lt _ _ V2 E) as L.
      rewrite H, string_compare_refl in L. discriminate.
    + exact E.
    + pose proof (isoformat_lt _ _ V1 E) as L.
      rewrite H, string_compare_refl in L. discriminate.
  - intros ->. reflexivity.
Qed.

Lemma update_timestamps_follow_the_clock_witness :
  let s := fst (lifespan true (module_init [])) in
  (String.ltb (timestamp (snapshot text_only quiet_at_three s))
              (timestamp (snapshot text_and_voice (quiet true)
                            (saved text_only quiet_at_three s))) = true
   <-> earlier (now quiet_at_three) (now (quiet true))) /\
  (timestamp (snapshot text_only quiet_at_three s)
   = timestamp (snapshot text_and_voice (quiet true)
                  (saved text_only quiet_at_three s))
   <-> now quiet_at_three = now (quiet true)).
Proof.
  apply (update_timestamps_follow_the_clock text_only text_and_voice
           quiet_at_three (quiet true)
           (fst (lifespan true (module_init [])))
           (saved text_only quiet_at_three (fst (lifespan true (module_init []))))
           (saved text_only quiet_at_three (fst (lifespan true (module_init []))))
           (saved text_and_voice (quiet true)
              (saved text_only quiet_at_three (fst (lifespan true (module_init [])))))
           {| status := "update received and saved";
              new_data_point :=
                snapshot text_only quiet_at_three
                  (fst (lifespan true (module_init []))) |}
           {| status := "update received and saved";
              new_data_point :=
                snapshot text_and_voice (quiet true)
                  (saved text_only quiet_at_three
                     (fst (lifespan true (module_init [])))) |}).
  - unfold valid_datetime. cbn. lia.
  - unfold valid_datetime. cbn. lia.
  - vm_compute. reflexivity.
  - vm_compute. reflexivity.
Defined.

(* ================================================================= *)
(** ** The division *)

Section Exceptions.

Lemma serve_count_step (r : request) (s : Server) :
  0 <= global_update_count s ->
  global_update_count (fst (serve r s)) <= global_update_count s + 1.
Proof.
  intros Hc. destruct r as [|payload env|]; cbn [serve]; unfold bind.
  - cbn. lia.
  - rewrite submit_model_update_eq.
    destruct (arithmetic_error _); [cbn; lia|].
    destruct (commit_ok env); cbn; lia.
  - cbn. lia.
Qed.

Lemma submit_no_arithmetic_error
  (payload : ModelUpdatePayload) (env : Env) (s : Server) :
  0 <= global_update_count s < 2 ^ 53 - 1 ->
  snd (submit_model_update payload env s) <> Raise ZeroDivisionError /\
  snd (submit_model_update payload env s) <> Raise OverflowError.
Proof.
  intros Hc. rewrite submit_model_update_eq, (arithmetic_in_range _ Hc).
  destruct (commit_ok env); split; discriminate.
Qed.

Lemma serve_no_arithmetic_error (r : request) (s : Server) :
  0 <= global_update_count s < 2 ^ 53 - 1 ->
  snd (serve r s) <> Raise ZeroDivisionError /\
  snd (serve r s) <> Raise OverflowError.
Proof.
  intros Hc. destruct r as [|payload env|]; cbn [serve]; unfold bind.
  - split; discriminate.
  - pose proof (submit_no_arithmetic_error payload env s Hc) as [Z O].
    destruct (submit_model_update payload env s) as [s1 [b|e]]; cbn [snd] in *.
    + split; discriminate.
    + split; congruence.
  - split; discriminate.
Qed.

Lemma run_no_arithmetic_error (reqs : list request) (s : Server) :
  0 <= global_update_count s ->
  global_update_count s + Z.of_nat (length reqs) <= 2 ^ 53 - 1 ->
  Forall (fun out => out <> Raise ZeroDivisionError /\ out <> Raise OverflowError)
         (snd (run reqs s)).
Proof.
  revert s. induction reqs as [|r reqs IH]; intros s H0 Hn; cbn [run].
  - constructor.
  - cbn [length] in Hn.
    pose proof (serve_count_step r s H0) as U.
    pose proof (serve_count_nonneg r s H0) as L.
    pose proof (serve_no_arithmetic_error r s ltac:(lia)) as R.
    destruct (serve r s) as [s1 out]. cbn [fst snd] in *.
    assert (IH1 := IH s1 L ltac:(lia)).
    destruct (run reqs s1) as [s2 outs]. cbn [snd] in *.
    constructor; [exact R|exact IH1].
Qed.

End Exceptions.

(** X12.  The division of lines 119-121 never fails in a running
    process.  At a count from 0 to below [2^53 - 1] the handler raises
    neither [ZeroDivisionError] nor [OverflowError], and the count
    stays in that range from a process start through the first
    [2^53 - 1] requests: none of them is answered with one of these
    two exceptions. *)
Theorem division_never_fails :
  (forall payload env s,
      0 <= global_update_count s < 2 ^ 53 - 1 ->
      snd (submit_model_update payload env s) <> Raise ZeroDivisionError /\
      snd (submit_model_update payload env s) <> Raise OverflowError) /\
  (forall ok rows reqs,
      Z.of_nat (length reqs) <= 2 ^ 53 - 1 ->
      Forall (fun out => out <> Raise ZeroDivisionError /\ out <> Raise OverflowError)
             (snd (run reqs (fst (lifespan ok (module_init rows)))))).
Proof.
  split; [exact submit_no_arithmetic_error|].
  intros ok rows reqs Hn. apply run_no_arithmetic_error;
    rewrite started_at_zero; lia.
Qed.

Lemma division_never_fails_witness :
  (snd (submit_model_update text_only (quiet true) (module_init []))
   <> Raise ZeroDivisionError /\
   snd (submit_model_update text_only (quiet true) (module_init []))
   <> Raise OverflowError) /\
  Forall (fun out => out <> Raise ZeroDivisionError /\ out <> Raise OverflowError)
         (snd (run [POST_submit_update text_only (quiet false); GET_root;
                    POST_submit_update text_only (quiet true)]
                 (fst (lifespan true (module_init []))))).
Proof.
  split.
  - apply (proj1 division_never_fails). vm_compute.
    split; [discriminate|reflexivity].
  - apply (proj2 division_never_fails true []). vm_compute. discriminate.
Defined.

(* ================================================================= *)
(** ** When the dashboard keeps the insertion order *)

Section InsertionOrder.

Variable A : Type.
Variable R : A -> A -> Prop.

(** Two sorted arrangements of the same elements are the same list,
    where the order tells the elements apart. *)
Lemma sorted_permutation_unique (l1 l2 : list A) :
  (forall x y, In x l1 -> In y l1 -> R x y -> R y x -> x = y) ->
  StronglySorted R l1 -> StronglySorted R l2 -> Permutation l1 l2 ->
  l1 = l2.
Proof.
  revert l2. induction l1 as [|a l1 IH]; intros l2 Anti S1 S2 P.
  - apply Permutation_nil in P. symmetry. exact P.
  - destruct l2 as [|b l2].
    { apply Permutation_sym, Permutation_nil in P. discriminate. }
    apply StronglySorted_inv in S1. destruct S1 as [S1 F1].
    apply StronglySorted_inv in S2. destruct S2 as [S2 F2].
    rewrite List.Forall_forall in F1, F2.
    assert (Hab : a = b).
    { assert (Ia : In a (b :: l2)) by (apply (Permutation_in _ P); left; reflexivity).
      assert (Ib : In b (a :: l1))
        by (apply (Permutation_in _ (Permutation_sym P)); left; reflexivity).
      destruct Ia as [Ia|Ia]; [symmetry; exact Ia|].
      destruct Ib as [Ib|Ib]; [exact Ib|].
      apply Anti; [left; reflexivity|right; exact Ib|apply F1, Ib|apply F2, Ia]. }
    subst b. f_equal. apply IH; [|exact S1|exact S2|].
    + intros x y Hx Hy. apply Anti; right; assumption.
    + apply (Permutation_cons_inv P).
Qed.

End InsertionOrder.

Section IncreasingTimestamps.

Lemma ltb_leb (a b : string) : String.ltb a b = true -> String.leb a b = true.
Proof.
  unfold String.ltb, String.leb. destruct (String.compare a b); auto.
Qed.

Lemma ltb_irrefl (a : string) : String.ltb a a = false.
Proof. unfold String.ltb. rewrite string_compare_refl. reflexivity. Qed.

(** In a table with increasing timestamps the timestamp tells the rows
    apart. *)
Lemma increasing_injective (rows : list DashboardDataPoint) :
  StronglySorted (fun x y => String.ltb (timestamp x) (timestamp y) = true) rows ->
  forall x y, In x rows -> In y rows -> timestamp x = timestamp y -> x = y.
Proof.
  induction 1 as [|a rows S IH F]; intros x y Hx Hy E; [destruct Hx|].
  rewrite List.Forall_forall in F.
  destruct Hx as [<-|Hx], Hy as [<-|Hy].
  - reflexivity.
  - pose proof (F y Hy) as L. rewrite E, ltb_irrefl in L. discriminate.
  - pose proof (F x Hx) as L. rewrite E, ltb_irrefl in L. discriminate.
  - apply IH; assumption.
Qed.

Lemma increasing_sorted (rows : list DashboardDataPoint) :
  StronglySorted (fun x y => String.ltb (timestamp x) (timestamp y) = true) rows ->
  StronglySorted (fun x y => timestamp_leb x y = true) rows.
Proof.
  induction 1 as [|a rows S IH F]; constructor; [exact IH|].
  eapply List.Forall_impl; [|exact F]. intros y. apply ltb_leb.
Qed.

End IncreasingTimestamps.

(** X13.  When the timestamps of the table increase with the insertion
    order, [GET /v1/dashboard-data] returns the rows exactly in the
    order in which they were inserted: [ORDER BY timestamp] then
    rearranges nothing. *)
Theorem dashboard_keeps_increasing_order (s : Server) :
  StronglySorted (fun x y => String.ltb (timestamp x) (timestamp y) = true)
    (hush_db s) ->
  get_dashboard_data s = (s, Ok (hush_db s)).
Proof.
  intros S. unfold get_dashboard_data, bind, gets, ret. do 2 f_equal.
  symmetry.
  apply (sorted_permutation_unique _ (fun x y => timestamp_leb x y = true)).
  - intros x y Hx Hy Lxy Lyx.
    apply (increasing_injective _ S x y Hx Hy).
    apply String.leb_antisym; assumption.
  - apply increasing_sorted, S.
  - apply order_by_timestamp_sorted.
  - apply order_by_timestamp_perm.
Qed.

Lemma dashboard_keeps_increasing_order_witness :
  let s := fst (lifespan true (module_init [])) in
  get_dashboard_data s = (s, Ok (hush_db s)).
Proof.
  apply (dashboard_keeps_increasing_order (fst (lifespan true (module_init [])))).
  repeat constructor.
Defined.
